(** * TaskManager: the task model, the status hook and the task routes

    A shallow embedding of the backend of the task manager:
    - [models/Task.js]  (the model definition, its [beforeUpdate] hook and
      the instance methods),
    - [routes/tasks.js] (the list, create, update and quick status routes),
    together with the little of the ORM and of SQLite that the routes rely
    on (row creation, [instance.update], [findAndCountAll], [IN], [LIKE]).

    Conventions.
    - A JavaScript string is a [string]; each character stands for one code
      unit (code units below 256).
    - [undefined] (an absent key of the request body or query) is [None].
    - A [Date] is its number of milliseconds since the epoch, a [Z]; a
      nullable column is an [option].
    - The clock ([new Date()]) is the argument [now] of every write.
    - A string that is no date or no number parses to [None]
      ([Invalid Date], [NaN]); the store keeps [NULL] for it.
    - An answer is its HTTP status with its data or its message. The list
      route answers 500 when its query fails (a limit or an offset that is
      no 64-bit integer, an order that the store does not know); the other
      failures of the store are not modelled. *)

From Stdlib Require Import ZArith QArith String Ascii List Bool Lia Permutation.
From stdpp Require Import base option list gmap.

Local Open Scope Z_scope.
Local Open Scope string_scope.

(** ** JavaScript strings *)

Module Js.

(** The white space that [String.prototype.trim] strips, among the code
    units below 256: TAB, LF, VT, FF, CR, SPACE and NBSP. *)
Definition is_space (c : ascii) : bool :=
  let n := N_of_ascii c in
  (N.leb 9 n && N.leb n 13) || N.eqb n 32 || N.eqb n 160.

Fixpoint trimStart (s : string) : string :=
  match s with
  | EmptyString => EmptyString
  | String c r => if is_space c then trimStart r else s
  end.

Fixpoint trimEnd (s : string) : string :=
  match s with
  | EmptyString => EmptyString
  | String c r =>
      match trimEnd r with
      | EmptyString => if is_space c then EmptyString else String c EmptyString
      | r' => String c r'
      end
  end.

(** [s.trim()] *)
Definition trim (s : string) : string := trimEnd (trimStart s).

(** [s.length] *)
Definition length (s : string) : Z := Z.of_nat (String.length s).

(** Truthiness of a string: only the empty string is falsy. *)
Definition truthy (s : string) : bool :=
  match s with EmptyString => false | _ => true end.

(** [!x] for a nullable object: only [null] is falsy. *)
Definition is_null {A : Type} (o : option A) : bool :=
  match o with None => true | Some _ => false end.

(** [arr.includes(x)] on an array of strings. *)
Definition includes (arr : list string) (x : string) : bool :=
  existsb (String.eqb x) arr.

(** The numbers that [Math.ceil(a / b)] can return on integers. *)
Inductive num : Type :=
| Int (z : Z)
| PosInf
| NegInf
| NaN.

(** [Math.ceil(a / b)] for integers [a] and [b]. *)
Definition ceil_div (a b : Z) : num :=
  if Z.eqb b 0 then
    (if Z.eqb a 0 then NaN else if Z.ltb 0 a then PosInf else NegInf)
  else Int (- ((- a) / b)).

(** [p < x] for an integer [p]. *)
Definition lt (p : Z) (x : num) : bool :=
  match x with
  | Int z => Z.ltb p z
  | PosInf => true
  | NegInf | NaN => false
  end.

(** [Math.round(a / b)] for an integer [a] and a positive integer [b]:
    the nearest integer, a half going up. *)
Definition round_div (a b : Z) : Z := (2 * a + b) / (2 * b).

End Js.

(** ** The model: [models/Task.js] *)

Record Task : Type := mkTask {
  id : Z;
  title : string;
  description : option string;
  priority : string;
  status : string;
  assignee : option string;
  due_date : option Z;
  started_at : option Z;
  completed_at : option Z;
  tags : option string;
  estimated_hours : option Q;
  actual_hours : option Q;
  project_id : option string;
  project_name : option string;
  created_at : Z;
  updated_at : Z
}.

Definition set_title (v : string) (t : Task) : Task :=
  mkTask (id t) v (description t) (priority t) (status t) (assignee t)
    (due_date t) (started_at t) (completed_at t) (tags t) (estimated_hours t)
    (actual_hours t) (project_id t) (project_name t) (created_at t) (updated_at t).

Definition set_description (v : option string) (t : Task) : Task :=
  mkTask (id t) (title t) v (priority t) (status t) (assignee t)
    (due_date t) (started_at t) (completed_at t) (tags t) (estimated_hours t)
    (actual_hours t) (project_id t) (project_name t) (created_at t) (updated_at t).

Definition set_priority (v : string) (t : Task) : Task :=
  mkTask (id t) (title t) (description t) v (status t) (assignee t)
    (due_date t) (started_at t) (completed_at t) (tags t) (estimated_hours t)
    (actual_hours t) (project_id t) (project_name t) (created_at t) (updated_at t).

Definition set_status (v : string) (t : Task) : Task :=
  mkTask (id t) (title t) (description t) (priority t) v (assignee t)
    (due_date t) (started_at t) (completed_at t) (tags t) (estimated_hours t)
    (actual_hours t) (project_id t) (project_name t) (created_at t) (updated_at t).

Definition set_assignee (v : option string) (t : Task) : Task :=
  mkTask (id t) (title t) (description t) (priority t) (status t) v
    (due_date t) (started_at t) (completed_at t) (tags t) (estimated_hours t)
    (actual_hours t) (project_id t) (project_name t) (created_at t) (updated_at t).

Definition set_due_date (v : option Z) (t : Task) : Task :=
  mkTask (id t) (title t) (description t) (priority t) (status t) (assignee t)
    v (started_at t) (completed_at t) (tags t) (estimated_hours t)
    (actual_hours t) (project_id t) (project_name t) (created_at t) (updated_at t).

Definition set_started_at (v : option Z) (t : Task) : Task :=
  mkTask (id t) (title t) (description t) (priority t) (status t) (assignee t)
    (due_date t) v (completed_at t) (tags t) (estimated_hours t)
    (actual_hours t) (project_id t) (project_name t) (created_at t) (updated_at t).

Definition set_completed_at (v : option Z) (t : Task) : Task :=
  mkTask (id t) (title t) (description t) (priority t) (status t) (assignee t)
    (due_date t) (started_at t) v (tags t) (estimated_hours t)
    (actual_hours t) (project_id t) (project_name t) (created_at t) (updated_at t).

Definition set_tags (v : option string) (t : Task) : Task :=
  mkTask (id t) (title t) (description t) (priority t) (status t) (assignee t)
    (due_date t) (started_at t) (completed_at t) v (estimated_hours t)
    (actual_hours t) (project_id t) (project_name t) (created_at t) (updated_at t).

Definition set_estimated_hours (v : option Q) (t : Task) : Task :=
  mkTask (id t) (title t) (description t) (priority t) (status t) (assignee t)
    (due_date t) (started_at t) (completed_at t) (tags t) v
    (actual_hours t) (project_id t) (project_name t) (created_at t) (updated_at t).

Definition set_actual_hours (v : option Q) (t : Task) : Task :=
  mkTask (id t) (title t) (description t) (priority t) (status t) (assignee t)
    (due_date t) (started_at t) (completed_at t) (tags t) (estimated_hours t)
    v (project_id t) (project_name t) (created_at t) (updated_at t).

Definition set_project_id (v : option string) (t : Task) : Task :=
  mkTask (id t) (title t) (description t) (priority t) (status t) (assignee t)
    (due_date t) (started_at t) (completed_at t) (tags t) (estimated_hours t)
    (actual_hours t) v (project_name t) (created_at t) (updated_at t).

Definition set_project_name (v : option string) (t : Task) : Task :=
  mkTask (id t) (title t) (description t) (priority t) (status t) (assignee t)
    (due_date t) (started_at t) (completed_at t) (tags t) (estimated_hours t)
    (actual_hours t) (project_id t) v (created_at t) (updated_at t).

Definition set_updated_at (v : Z) (t : Task) : Task :=
  mkTask (id t) (title t) (description t) (priority t) (status t) (assignee t)
    (due_date t) (started_at t) (completed_at t) (tags t) (estimated_hours t)
    (actual_hours t) (project_id t) (project_name t) (created_at t) v.

(** Two rows are equal when all their columns are. *)
#[global] Instance Q_eq_dec : EqDecision Q.
Proof. solve_decision. Defined.

#[global] Instance Task_eq_dec : EqDecision Task.
Proof. solve_decision. Defined.

(** The hook [beforeCreate]: it only writes a log line. *)
Definition beforeCreate (task : Task) : Task := task.

(** The hook [beforeUpdate].  [previousStatus] is
    [task._previousDataValues.status]; [task] already carries the new
    values.  The four [if] statements run in the order of the source, each
    on the task as the previous ones left it.  A [Date] object is truthy,
    so [!task.started_at] holds exactly for [null]. *)
Definition beforeUpdate (previousStatus : string) (now : Z) (task : Task) : Task :=
  let currentStatus := status task in
  let task :=
    if String.eqb currentStatus "in_progress"
       && negb (String.eqb previousStatus "in_progress")
       && Js.is_null (started_at task)
    then set_started_at (Some now) task else task in
  let task :=
    if String.eqb currentStatus "approved"
       && negb (String.eqb previousStatus "approved")
    then set_completed_at (Some now) task else task in
  let task :=
    if String.eqb previousStatus "approved"
       && negb (String.eqb currentStatus "approved")
    then set_completed_at None task else task in
  let task :=
    if String.eqb previousStatus "in_progress"
       && String.eqb currentStatus "todo"
    then set_started_at None task else task in
  task.

(** [getStatusText], [getPriorityText]: [map[x] || x]. *)
Definition getStatusText (t : Task) : string :=
  let s := status t in
  if String.eqb s "todo" then "待办"
  else if String.eqb s "in_progress" then "进行中"
  else if String.eqb s "pending_review" then "待验收"
  else if String.eqb s "approved" then "已验收"
  else if String.eqb s "rejected_revision" then "验收不通过-待修改"
  else if String.eqb s "cancelled" then "已取消"
  else s.

Definition getPriorityText (t : Task) : string :=
  let p := priority t in
  if String.eqb p "low" then "低"
  else if String.eqb p "medium" then "中"
  else if String.eqb p "high" then "高"
  else p.

(** [getDuration]: [Math.round(duration / (1000*60*60*24*100)) / 100] when
    both dates are set, else [null].  The quotient is taken exactly. *)
Definition getDuration (t : Task) : option Q :=
  match started_at t, completed_at t with
  | Some s, Some c =>
      let duration := c - s in
      Some (inject_Z (Js.round_div duration (1000 * 60 * 60 * 24 * 100)) / 100)%Q
  | _, _ => None
  end.

(** ** The store: the ORM over one SQLite table *)

(** The text columns that the list route filters on. *)
Inductive Col : Type :=
| ColTitle | ColDescription | ColTags | ColAssignee
| ColStatus | ColPriority | ColProjectId.

Definition col_value (c : Col) (t : Task) : option string :=
  match c with
  | ColTitle => Some (title t)
  | ColDescription => description t
  | ColTags => tags t
  | ColAssignee => assignee t
  | ColStatus => Some (status t)
  | ColPriority => Some (priority t)
  | ColProjectId => project_id t
  end.

(** The conditions of a [where] object, as the list route builds them:
    [{ [Op.in]: vals }], [{ [Op.like]: pattern }] and an [Op.or] of
    [LIKE] conditions.  The keys of [where] are joined by [AND]. *)
Inductive Cond : Type :=
| OpIn (c : Col) (vals : list string)
| OpLike (c : Col) (pattern : string)
| OpOrLike (alts : list (Col * string)).

Module Sql.

(** SQLite folds the 26 ASCII letters when it compares for [LIKE]. *)
Definition upper (c : ascii) : ascii :=
  let n := N_of_ascii c in
  if N.leb 97 n && N.leb n 122 then ascii_of_N (n - 32) else c.

Definition ci_eqb (c d : ascii) : bool := Ascii.eqb (upper c) (upper d).

Definition percent : ascii := "%"%char.
Definition underscore : ascii := "_"%char.

(** [s LIKE p]: [%] stands for any run of characters, [_] for any one
    character, any other character for itself up to ASCII case. *)
Fixpoint like (p s : string) : bool :=
  match p with
  | EmptyString => match s with EmptyString => true | _ => false end
  | String c p' =>
      if Ascii.eqb c percent then
        (fix skip (s : string) : bool :=
           like p' s ||
           match s with
           | EmptyString => false
           | String _ s' => skip s'
           end) s
      else
        match s with
        | EmptyString => false
        | String d s' =>
            (Ascii.eqb c underscore || ci_eqb c d) && like p' s'
        end
  end.

(** A [NULL] column satisfies neither [IN] nor [LIKE]. *)
Definition col_in (vals : list string) (v : option string) : bool :=
  match v with
  | Some x => existsb (String.eqb x) vals
  | None => false
  end.

Definition col_like (pattern : string) (v : option string) : bool :=
  match v with
  | Some x => like pattern x
  | None => false
  end.

Definition eval_cond (t : Task) (c : Cond) : bool :=
  match c with
  | OpIn col vals => col_in vals (col_value col t)
  | OpLike col pattern => col_like pattern (col_value col t)
  | OpOrLike alts =>
      existsb (fun a => col_like (snd a) (col_value (fst a) t)) alts
  end.

Definition eval_where (where_ : list Cond) (t : Task) : bool :=
  forallb (eval_cond t) where_.

(** [OFFSET o]: a negative offset skips nothing. *)
Definition offset {A : Type} (o : Z) (l : list A) : list A := drop (Z.to_nat o) l.

(** [LIMIT n]: a negative limit keeps every row. *)
Definition limit {A : Type} (n : Z) (l : list A) : list A :=
  if Z.ltb n 0 then l else take (Z.to_nat n) l.

(** [LIMIT] and [OFFSET] take 64-bit integers; the statement fails with
    a datatype mismatch on a number outside of them. *)
Definition fits_int64 (n : Z) : bool :=
  Z.leb (- 2 ^ 63) n && Z.ltb n (2 ^ 63).

End Sql.

(** The table and the counter of its [AUTOINCREMENT] key. *)
Record Db : Type := mkDb {
  tasks : gmap Z Task;
  next_id : Z
}.

Definition empty_db : Db := mkDb ∅ 1.

(** The values [Task.create] receives from the create route. *)
Record TaskData : Type := mkTaskData {
  d_title : string;
  d_description : option string;
  d_priority : option string;
  d_status : option string;
  d_assignee : option string;
  d_due_date : option Z;
  d_tags : option string;
  d_estimated_hours : option Q;
  d_project_id : option string;
  d_project_name : option string
}.

(** [Task.create(taskData)]: the attributes without a value take the
    default of the model ([priority]: medium, [status]: todo; the other
    columns have none and stay [null]), the key is the next one of the
    table, [created_at] and [updated_at] are the time of the write, and
    the hook [beforeCreate] runs before the row is inserted. *)
Definition Task_create (data : TaskData) (now : Z) (db : Db) : Task * Db :=
  let task :=
    beforeCreate
      {| id := next_id db;
         title := d_title data;
         description := d_description data;
         priority := default "medium" (d_priority data);
         status := default "todo" (d_status data);
         assignee := d_assignee data;
         due_date := d_due_date data;
         started_at := None;
         completed_at := None;
         tags := d_tags data;
         estimated_hours := d_estimated_hours data;
         actual_hours := None;
         project_id := d_project_id data;
         project_name := d_project_name data;
         created_at := now;
         updated_at := now |} in
  (task, mkDb (<[id task := task]> (tasks db)) (next_id db + 1)).

(** [Task.findByPk(id)] *)
Definition findByPk (key : Z) (db : Db) : option Task := tasks db !! key.

(** A date or a number as a route hands it to [instance.update]: [null],
    a value, or what its string did not parse to ([Invalid Date], [NaN]).
    The last one is equal to no stored value and is stored as [NULL]. *)
Inductive Sent (A : Type) : Type :=
| SentNull
| SentValue (a : A)
| SentInvalid.
Arguments SentNull {A}.
Arguments SentValue {A} a.
Arguments SentInvalid {A}.

(** The column value that a sent value leaves in the table. *)
Definition stored {A : Type} (v : Sent A) : option A :=
  match v with
  | SentValue a => Some a
  | SentNull | SentInvalid => None
  end.

Definition is_invalid {A : Type} (v : option (Sent A)) : bool :=
  match v with
  | Some SentInvalid => true
  | _ => false
  end.

(** The object given to [instance.update]: a key that is absent is [None]. *)
Record UpdateData : Type := mkUpdateData {
  u_title : option string;
  u_description : option (option string);
  u_priority : option string;
  u_status : option string;
  u_assignee : option (option string);
  u_due_date : option (Sent Z);
  u_tags : option (option string);
  u_estimated_hours : option (Sent Q);
  u_actual_hours : option (Sent Q);
  u_project_id : option (option string);
  u_project_name : option (option string)
}.

(** The object [{ status }] of the quick status route. *)
Definition status_only (s : string) : UpdateData :=
  mkUpdateData None None None (Some s) None None None None None None None.

Definition set_if {A : Type} (o : option A) (f : A -> Task -> Task) (t : Task) : Task :=
  match o with Some v => f v t | None => t end.

(** [instance.set(values)] *)
Definition set_values (u : UpdateData) (t : Task) : Task :=
  let t := set_if (u_title u) set_title t in
  let t := set_if (u_description u) set_description t in
  let t := set_if (u_priority u) set_priority t in
  let t := set_if (u_status u) set_status t in
  let t := set_if (u_assignee u) set_assignee t in
  let t := set_if (u_due_date u) (fun v => set_due_date (stored v)) t in
  let t := set_if (u_tags u) set_tags t in
  let t := set_if (u_estimated_hours u) (fun v => set_estimated_hours (stored v)) t in
  let t := set_if (u_actual_hours u) (fun v => set_actual_hours (stored v)) t in
  let t := set_if (u_project_id u) set_project_id t in
  let t := set_if (u_project_name u) set_project_name t in
  t.

(** [instance.changed()] after [instance.set(values)]: an attribute has
    changed when its new value differs from the loaded one; a value that
    did not parse differs from every loaded value. *)
Definition update_changes (values : UpdateData) (task : Task) : bool :=
  negb (bool_decide (set_values values task = task))
  || is_invalid (u_due_date values)
  || is_invalid (u_estimated_hours values)
  || is_invalid (u_actual_hours values).

(** [task.update(values)] on an instance loaded from the table: the values
    are set and [beforeUpdate] runs with the loaded status as
    [_previousDataValues.status]. When no attribute has changed nothing is
    written and the row keeps its [updated_at]; otherwise [updated_at] is
    refreshed and the row is written, with what the hook changed. The
    result is the row as it stands in the table after the call, which is
    what [task.reload()] reads next in both routes, and the table. *)
Definition Instance_update (values : UpdateData) (now : Z) (task : Task) (db : Db)
  : Task * Db :=
  let previousStatus := status task in
  let updated := beforeUpdate previousStatus now (set_values values task) in
  if update_changes values task then
    let written := set_updated_at now updated in
    (written, mkDb (<[id written := written]> (tasks db)) (next_id db))
  else (task, db).

(** [task.reload()] *)
Definition reload (task : Task) (db : Db) : Task :=
  default task (findByPk (id task) db).

(** The rows of the table. *)
Definition all_rows (db : Db) : list Task := (map_to_list (tasks db)).*2.

(** ** The routes: [routes/tasks.js] *)

(** A request body.  The routes read some of its keys; the others ([id],
    [started_at], [completed_at], and [actual_hours] on create) are part of
    what a caller may send. *)
Record Body : Type := mkBody {
  b_id : option Z;
  b_title : option string;
  b_description : option string;
  b_priority : option string;
  b_status : option string;
  b_assignee : option string;
  b_due_date : option string;
  b_started_at : option string;
  b_completed_at : option string;
  b_tags : option string;
  b_estimated_hours : option string;
  b_actual_hours : option string;
  b_project_id : option string;
  b_project_name : option string
}.

Definition empty_body : Body :=
  mkBody None None None None None None None None None None None None None None.

(** A value of the query string: one string or, when the key is repeated,
    an array of strings. *)
Inductive QVal : Type :=
| QStr (s : string)
| QArr (l : list string).

Definition qval_truthy (v : option QVal) : bool :=
  match v with
  | Some (QStr s) => Js.truthy s
  | Some (QArr _) => true
  | None => false
  end.

(** [Array.isArray(v) ? v : [v]] *)
Definition to_array (v : QVal) : list string :=
  match v with
  | QArr l => l
  | QStr s => [s]
  end.

(** The query of the list route; [q_page] and [q_limit] are the integers
    that [parseInt] reads. *)
Record Query : Type := mkQuery {
  q_status : option QVal;
  q_priority : option QVal;
  q_project_id : option QVal;
  q_assignee : option string;
  q_search : option string;
  q_page : option Z;
  q_limit : option Z;
  q_sortBy : option string;
  q_sortOrder : option string
}.

Inductive ErrMsg : Type :=
| TitleEmpty | TitleTooLong | InvalidPriority | InvalidStatus
| StatusEmpty | TaskNotFound | ListFailed.

(** [res.status(code).json(...)]: a success carries data, a failure a
    message. *)
Inductive Response (A : Type) : Type :=
| Json (code : Z) (payload : A)
| Fail (code : Z) (msg : ErrMsg).
Arguments Json {A} code payload.
Arguments Fail {A} code msg.

Definition http_status {A : Type} (r : Response A) : Z :=
  match r with
  | Json code _ => code
  | Fail code _ => code
  end.

(** A task as the routes send it: the row and the display fields. *)
Record TaskJson : Type := mkTaskJson {
  row : Task;
  statusText : string;
  priorityText : string;
  duration : option Q
}.

(** What the quick status route sends. *)
Record StatusJson : Type := mkStatusJson {
  s_id : Z;
  s_status : string;
  s_statusText : string;
  s_started_at : option Z;
  s_completed_at : option Z
}.

Record Pagination : Type := mkPagination {
  total : Z;
  page : Z;
  limit : Z;
  totalPages : Js.num;
  hasNext : bool;
  hasPrev : bool
}.

(** The filters of the query, sent back as they came. *)
Record Filters : Type := mkFilters {
  f_status : option QVal;
  f_priority : option QVal;
  f_assignee : option string;
  f_search : option string
}.

Record ListJson : Type := mkListJson {
  data : list TaskJson;
  pagination : Pagination;
  filters : Filters
}.

Definition validPriorities : list string := ["low"; "medium"; "high"].

Definition validStatuses : list string :=
  ["todo"; "in_progress"; "pending_review"; "approved"; "rejected_revision";
   "cancelled"].

(** The two checks of a title, the same in the create and update routes:
    [!title || title.trim().length === 0], then [title.length > 100]. *)
Definition check_title (title : string) : option ErrMsg :=
  if negb (Js.truthy title) || Z.eqb (Js.length (Js.trim title)) 0 then
    Some TitleEmpty
  else if Z.ltb 100 (Js.length title) then Some TitleTooLong
  else None.

(** [x ? f(x) : null] *)
Definition or_null {A : Type} (f : string -> A) (x : option string) : option A :=
  match x with
  | Some s => if Js.truthy s then Some (f s) else None
  | None => None
  end.

(** [x ? parse(x) : null] for a date or a number, as the create route
    stores it: [parse] gives [None] on a string that is no date or no
    number, and the column is then [NULL]. *)
Definition parsed_or_null {A : Type} (parse : string -> option A)
    (x : option string) : option A :=
  match x with
  | Some s => if Js.truthy s then parse s else None
  | None => None
  end.

(** [x ? parse(x) : null] for a date or a number, as the update route
    hands it to [task.update]. *)
Definition sent_value {A : Type} (parse : string -> option A) (s : string)
  : Sent A :=
  if Js.truthy s then
    match parse s with
    | Some v => SentValue v
    | None => SentInvalid
    end
  else SentNull.

(** The [where] object of the list route. *)
Definition build_where (q : Query) : list Cond :=
  (if qval_truthy (q_status q)
   then [OpIn ColStatus (from_option to_array [] (q_status q))] else []) ++
  (if qval_truthy (q_priority q)
   then [OpIn ColPriority (from_option to_array [] (q_priority q))] else []) ++
  (if qval_truthy (q_project_id q)
   then [OpIn ColProjectId (from_option to_array [] (q_project_id q))] else []) ++
  (match q_assignee q with
   | Some a => if Js.truthy a then [OpLike ColAssignee ("%" ++ a ++ "%")] else []
   | None => []
   end) ++
  (match q_search q with
   | Some s =>
       if Js.truthy s then
         [OpOrLike [(ColTitle, "%" ++ s ++ "%");
                    (ColDescription, "%" ++ s ++ "%");
                    (ColTags, "%" ++ s ++ "%")]]
       else []
   | None => []
   end).

Section Routes.

(** [new Date(s)] on a string, as milliseconds; [None] is
    [Invalid Date]. *)
Variable parseDate : string -> option Z.

(** [parseFloat(s)]; [None] is [NaN]. *)
Variable parseFloat : string -> option Q.

(** Whether the ORM installs the [instanceMethods] of the model
    definition on the instances; the routes test for each method before
    they call it. *)
Variable instance_methods : bool.

(** [order sortBy sortOrder rows]: the rows in the order of
    [ORDER BY sortBy sortOrder.toUpperCase()], or [None] when the store
    refuses the clause (a column or a direction it does not know) and the
    query throws. *)
Variable order : string -> string -> list Task -> option (list Task).

(** The rows that [where_] selects, in the order asked for. *)
Definition matching (where_ : list Cond) (sortBy sortOrder : string) (db : Db)
  : option (list Task) :=
  order sortBy sortOrder (List.filter (Sql.eval_where where_) (all_rows db)).

(** [Task.findAndCountAll({ where, limit, offset, order })]: the number
    of selected rows and one page of them. The query throws ([None]) when
    [LIMIT] or [OFFSET] is no 64-bit integer or the order is refused. *)
Definition findAndCountAll (where_ : list Cond) (limit_ offset_ : Z)
    (sortBy sortOrder : string) (db : Db) : option (Z * list Task) :=
  if Sql.fits_int64 limit_ && Sql.fits_int64 offset_ then
    match matching where_ sortBy sortOrder db with
    | Some selected =>
        Some (Z.of_nat (List.length (List.filter (Sql.eval_where where_) (all_rows db))),
              Sql.limit limit_ (Sql.offset offset_ selected))
    | None => None
    end
  else None.

(** The display fields added to a row by the list, get and update
    routes. *)
Definition enrich (task : Task) : TaskJson :=
  {| row := task;
     statusText := if instance_methods then getStatusText task else status task;
     priorityText := if instance_methods then getPriorityText task else priority task;
     duration := if instance_methods then getDuration task else None |}.

(** The create route sends no [duration]. *)
Definition enrich_created (task : Task) : TaskJson :=
  {| row := task;
     statusText := if instance_methods then getStatusText task else status task;
     priorityText := if instance_methods then getPriorityText task else priority task;
     duration := None |}.

(** [GET /api/tasks] *)
Definition list_tasks (q : Query) (db : Db) : Response ListJson :=
  let page_ := default 1 (q_page q) in
  let limit_ := default 10 (q_limit q) in
  let sortBy := default "created_at" (q_sortBy q) in
  let sortOrder := default "DESC" (q_sortOrder q) in
  let where_ := build_where q in
  let offset_ := (page_ - 1) * limit_ in
  let limitNum := limit_ in
  match findAndCountAll where_ limitNum offset_ sortBy sortOrder db with
  | None => Fail 500 ListFailed
  | Some result =>
      let tasks_ := map enrich (snd result) in
      Json 200
        {| data := tasks_;
           pagination :=
             {| total := fst result;
                page := page_;
                limit := limitNum;
                totalPages := Js.ceil_div (fst result) limitNum;
                hasNext := Js.lt page_ (Js.ceil_div (fst result) limitNum);
                hasPrev := Z.ltb 1 page_ |};
           filters :=
             {| f_status := q_status q;
                f_priority := q_priority q;
                f_assignee := q_assignee q;
                f_search := q_search q |} |}
  end.

(** [GET /api/tasks/:id] *)
Definition get_task (key : Z) (db : Db) : Response TaskJson :=
  match findByPk key db with
  | None => Fail 404 TaskNotFound
  | Some task => Json 200 (enrich task)
  end.

(** [POST /api/tasks] *)
Definition create_task (body : Body) (now : Z) (db : Db)
  : Response TaskJson * Db :=
  let priority_ := default "medium" (b_priority body) in
  let status_ := default "todo" (b_status body) in
  match b_title body with
  | None => (Fail 400 TitleEmpty, db)
  | Some title_ =>
      match check_title title_ with
      | Some e => (Fail 400 e, db)
      | None =>
          if negb (Js.includes validPriorities priority_) then
            (Fail 400 InvalidPriority, db)
          else if negb (Js.includes validStatuses status_) then
            (Fail 400 InvalidStatus, db)
          else
            let taskData :=
              {| d_title := Js.trim title_;
                 d_description := or_null Js.trim (b_description body);
                 d_priority := Some priority_;
                 d_status := Some status_;
                 d_assignee := or_null Js.trim (b_assignee body);
                 d_due_date := parsed_or_null parseDate (b_due_date body);
                 d_tags := or_null Js.trim (b_tags body);
                 d_estimated_hours :=
                   parsed_or_null parseFloat (b_estimated_hours body);
                 d_project_id := or_null Js.trim (b_project_id body);
                 d_project_name := or_null Js.trim (b_project_name body) |} in
            let created := Task_create taskData now db in
            (Json 201 (enrich_created (fst created)), snd created)
      end
  end.

(** The checks of the update route, in the order of the source; a key
    that is [undefined] is not checked. *)
Definition validate_update (body : Body) : option ErrMsg :=
  match from_option check_title None (b_title body) with
  | Some e => Some e
  | None =>
      if negb (from_option (Js.includes validPriorities) true (b_priority body))
      then Some InvalidPriority
      else if negb (from_option (Js.includes validStatuses) true (b_status body))
      then Some InvalidStatus
      else None
  end.

(** [updateData] of the update route. *)
Definition build_updateData (body : Body) : UpdateData :=
  {| u_title := Js.trim <$> b_title body;
     u_description := (fun s => or_null Js.trim (Some s)) <$> b_description body;
     u_priority := b_priority body;
     u_status := b_status body;
     u_assignee := (fun s => or_null Js.trim (Some s)) <$> b_assignee body;
     u_due_date := sent_value parseDate <$> b_due_date body;
     u_tags := (fun s => or_null Js.trim (Some s)) <$> b_tags body;
     u_estimated_hours := sent_value parseFloat <$> b_estimated_hours body;
     u_actual_hours := sent_value parseFloat <$> b_actual_hours body;
     u_project_id := (fun s => or_null Js.trim (Some s)) <$> b_project_id body;
     u_project_name := (fun s => or_null Js.trim (Some s)) <$> b_project_name body |}.

(** [PUT /api/tasks/:id] *)
Definition update_task (key : Z) (body : Body) (now : Z) (db : Db)
  : Response TaskJson * Db :=
  match findByPk key db with
  | None => (Fail 404 TaskNotFound, db)
  | Some task =>
      match validate_update body with
      | Some e => (Fail 400 e, db)
      | None =>
          let updated := Instance_update (build_updateData body) now task db in
          let task := reload (fst updated) (snd updated) in
          (Json 200 (enrich task), snd updated)
      end
  end.

(** [PATCH /api/tasks/:id/status] *)
Definition patch_status (key : Z) (body : Body) (now : Z) (db : Db)
  : Response StatusJson * Db :=
  match b_status body with
  | None => (Fail 400 StatusEmpty, db)
  | Some status_ =>
      if negb (Js.truthy status_) then (Fail 400 StatusEmpty, db)
      else if negb (Js.includes validStatuses status_) then
        (Fail 400 InvalidStatus, db)
      else
        match findByPk key db with
        | None => (Fail 404 TaskNotFound, db)
        | Some task =>
            let updated := Instance_update (status_only status_) now task db in
            let task := reload (fst updated) (snd updated) in
            (Json 200
               {| s_id := id task;
                  s_status := status task;
                  s_statusText :=
                    if instance_methods then getStatusText task else status task;
                  s_started_at := started_at task;
                  s_completed_at := completed_at task |},
             snd updated)
        end
  end.

End Routes.

(** ** Requests and runs *)

(** The writes of the API and the time at which each one runs. *)
Inductive Request : Type :=
| Create (body : Body)
| Update (key : Z) (body : Body)
| PatchStatus (key : Z) (body : Body).

Section Runs.

Variable parseDate : string -> option Z.
Variable parseFloat : string -> option Q.
Variable instance_methods : bool.

Definition step (r : Request) (now : Z) (db : Db) : Db :=
  match r with
  | Create body =>
      snd (create_task parseDate parseFloat instance_methods body now db)
  | Update key body =>
      snd (update_task parseDate parseFloat instance_methods key body now db)
  | PatchStatus key body =>
      snd (patch_status instance_methods key body now db)
  end.

Fixpoint run (rs : list (Request * Z)) (db : Db) : Db :=
  match rs with
  | [] => db
  | (r, now) :: rs' => run rs' (step r now db)
  end.

End Runs.

(** The status that a request asks for, if any. *)
Definition requested_status (r : Request) : option string :=
  match r with
  | Create body => b_status body
  | Update _ body => b_status body
  | PatchStatus _ body => b_status body
  end.

(** ** The contract of the status transitions, in the words of the
    specification *)

(** The five rules of the contract for the derived timestamps: [existing]
    and [result] are the pairs [(started_at, completed_at)] before and
    after a write that takes the status from [previousStatus] to
    [nextStatus] at time [now]. *)
Definition derived_timestamps_rules (previousStatus nextStatus : string)
    (existing : option Z * option Z) (now : Z) (result : option Z * option Z) : Prop :=
  let enters_in_progress :=
    nextStatus = "in_progress" /\ previousStatus <> "in_progress" /\ fst existing = None in
  let enters_approved := nextStatus = "approved" /\ previousStatus <> "approved" in
  let leaves_approved := previousStatus = "approved" /\ nextStatus <> "approved" in
  let back_to_todo := previousStatus = "in_progress" /\ nextStatus = "todo" in
  (enters_in_progress -> fst result = Some now) /\
  (enters_approved -> snd result = Some now) /\
  (leaves_approved -> snd result = None) /\
  (back_to_todo -> fst result = None) /\
  (~ enters_in_progress -> ~ back_to_todo -> fst result = fst existing) /\
  (~ enters_approved -> ~ leaves_approved -> snd result = snd existing).

(** The invariant of the table: a row is stored under its own key, and the
    keys in use are below the counter. *)
Definition wf_db (db : Db) : Prop :=
  forall k t, tasks db !! k = Some t -> id t = k /\ k < next_id db.

(** ** Conditions and tests used in the statements *)

(** A write to the row under [key] that asks for status [s] and is
    accepted: the quick status route, or the update route with a body that
    passes its checks. *)
Definition accepted_status_write (key : Z) (s : string) (r : Request) : Prop :=
  match r with
  | Create _ => False
  | Update k body => k = key /\ b_status body = Some s /\ validate_update body = None
  | PatchStatus k body =>
      k = key /\ b_status body = Some s /\ Js.includes validStatuses s = true
  end.

(** [completed_at] is set exactly on the approved tasks. *)
Definition completed_iff_approved (t : Task) : Prop :=
  completed_at t <> None <-> status t = "approved".

Definition db_completed_inv (db : Db) : Prop :=
  forall k t, findByPk k db = Some t -> completed_iff_approved t.

(** The keys of a body that the create route does not read. *)
Definition strip_ignored (body : Body) : Body :=
  mkBody None (b_title body) (b_description body) (b_priority body)
    (b_status body) (b_assignee body) (b_due_date body) None None
    (b_tags body) (b_estimated_hours body) None (b_project_id body)
    (b_project_name body).

(** A title that is empty once trimmed. *)
Definition blank (title_ : string) : bool := Z.eqb (Js.length (Js.trim title_)) 0.

(** When the create route answers 400. *)
Definition create_rejection (body : Body) : bool :=
  from_option (fun ti => blank ti || Z.ltb 100 (Js.length ti)) true (b_title body)
  || negb (from_option (Js.includes validPriorities) true (b_priority body))
  || negb (from_option (Js.includes validStatuses) true (b_status body)).

(** When the update route answers 400 for an existing task. *)
Definition update_rejection (body : Body) : bool :=
  from_option (fun ti => blank ti || Z.ltb 100 (Js.length ti)) false (b_title body)
  || negb (from_option (Js.includes validPriorities) true (b_priority body))
  || negb (from_option (Js.includes validStatuses) true (b_status body)).

(** The rejection rule in the words of the specification: the title,
    trimmed, is empty or longer than 100 characters, or one of the two enum
    values is not among those allowed. *)
Definition rejection_as_specified (body : Body) : bool :=
  from_option (fun ti => blank ti || Z.ltb 100 (Js.length (Js.trim ti))) false (b_title body)
  || negb (from_option (Js.includes validPriorities) true (b_priority body))
  || negb (from_option (Js.includes validStatuses) true (b_status body)).

(** A valid create payload in the words of the specification (a
    non-empty title of at most 100 characters and valid enum values), with
    the title read as it is sent, and with the title read once trimmed. *)
Definition valid_payload_as_sent (body : Body) : bool :=
  from_option (fun ti => Js.truthy ti && Z.leb (Js.length ti) 100) false (b_title body)
  && from_option (Js.includes validPriorities) true (b_priority body)
  && from_option (Js.includes validStatuses) true (b_status body).

Definition valid_payload_trimmed (body : Body) : bool :=
  from_option (fun ti => Js.truthy (Js.trim ti) && Z.leb (Js.length (Js.trim ti)) 100)
    false (b_title body)
  && from_option (Js.includes validPriorities) true (b_priority body)
  && from_option (Js.includes validStatuses) true (b_status body).

(** [needle] is a prefix of [s]. *)
Fixpoint starts_with (needle s : string) : bool :=
  match needle, s with
  | EmptyString, _ => true
  | String c n', String d s' => Ascii.eqb c d && starts_with n' s'
  | String _ _, EmptyString => false
  end.

(** [needle] occurs in [s]. *)
Fixpoint contains (needle s : string) : bool :=
  starts_with needle s
  || match s with
     | EmptyString => false
     | String _ s' => contains needle s'
     end.

(** The same two tests up to the case of the ASCII letters. *)
Fixpoint starts_with_ci (needle s : string) : bool :=
  match needle, s with
  | EmptyString, _ => true
  | String c n', String d s' => Sql.ci_eqb c d && starts_with_ci n' s'
  | String _ _, EmptyString => false
  end.

Fixpoint contains_ci (needle s : string) : bool :=
  starts_with_ci needle s
  || match s with
     | EmptyString => false
     | String _ s' => contains_ci needle s'
     end.

(** No [%] and no [_] in the string. *)
Fixpoint wildcard_free (s : string) : bool :=
  match s with
  | EmptyString => true
  | String c s' =>
      negb (Ascii.eqb c Sql.percent) && negb (Ascii.eqb c Sql.underscore)
      && wildcard_free s'
  end.

(** The filters that a query supplies: a set for a value or a list of
    values, a text for a non-empty string. *)
Definition supplied_set (v : option QVal) : option (list string) :=
  match v with
  | Some (QStr s) => if Js.truthy s then Some [s] else None
  | Some (QArr l) => Some l
  | None => None
  end.

Definition supplied_text (v : option string) : option string :=
  match v with
  | Some s => if Js.truthy s then Some s else None
  | None => None
  end.

Definition member (x : option string) (set : list string) : bool :=
  match x with
  | Some y => existsb (String.eqb y) set
  | None => false
  end.

Definition occurs_in (sub : string -> string -> bool) (needle : string)
    (x : option string) : bool :=
  match x with
  | Some y => sub needle y
  | None => false
  end.

(** A row satisfies all the supplied filters, [sub needle s] being the
    test that [s] contains [needle]. *)
Definition satisfies_filters (sub : string -> string -> bool) (q : Query) (t : Task)
  : bool :=
  from_option (member (Some (status t))) true (supplied_set (q_status q))
  && from_option (member (Some (priority t))) true (supplied_set (q_priority q))
  && from_option (member (project_id t)) true (supplied_set (q_project_id q))
  && from_option (fun a => occurs_in sub a (assignee t)) true
       (supplied_text (q_assignee q))
  && from_option
       (fun s => occurs_in sub s (Some (title t))
                 || occurs_in sub s (description t)
                 || occurs_in sub s (tags t))
       true (supplied_text (q_search q)).

(** The filter in the words of the specification: plain substrings. *)
Definition filter_as_specified : Query -> Task -> bool := satisfies_filters contains.

(** The elapsed time between two dates in days, rounded to two decimal
    places: the duration in the words of the specification. *)
Definition elapsed_days_2dp (started completed : Z) : Q :=
  (inject_Z (Js.round_div ((completed - started) * 100) (1000 * 60 * 60 * 24)) / 100)%Q.

(** ** The other routes of [routes/tasks.js] *)

(** [task.destroy()]: the row is removed; the counter of the keys stays,
    so that a key is not given twice. *)
Definition Instance_destroy (task : Task) (db : Db) : Db :=
  mkDb (delete (id task) (tasks db)) (next_id db).

(** [DELETE /api/tasks/:id] *)
Definition delete_task (key : Z) (db : Db) : Response unit * Db :=
  match findByPk key db with
  | None => (Fail 404 TaskNotFound, db)
  | Some task => (Json 200 tt, Instance_destroy task db)
  end.

(** An entry of the catalogs [getStatusOptions] and [getPriorityOptions]. *)
Record OptionItem : Type := mkOptionItem {
  value : string;
  label : string;
  color : string
}.

Definition getStatusOptions : list OptionItem :=
  [ mkOptionItem "todo" "待办" "default";
    mkOptionItem "in_progress" "进行中" "processing";
    mkOptionItem "pending_review" "待验收" "warning";
    mkOptionItem "approved" "已验收" "success";
    mkOptionItem "rejected_revision" "验收不通过-待修改" "error";
    mkOptionItem "cancelled" "已取消" "default" ].

Definition getPriorityOptions : list OptionItem :=
  [ mkOptionItem "low" "低" "green";
    mkOptionItem "medium" "中" "orange";
    mkOptionItem "high" "高" "red" ].

(** [GET /api/tasks/options/status] and [GET /api/tasks/options/priority] *)
Definition options_status : Response (list OptionItem) := Json 200 getStatusOptions.

Definition options_priority : Response (list OptionItem) := Json 200 getPriorityOptions.

(** A project as the two project routes send it. *)
Record ProjectJson : Type := mkProjectJson {
  p_id : string;
  p_name : string
}.

#[global] Instance ProjectJson_eq_dec : EqDecision ProjectJson.
Proof. solve_decision. Defined.

(** The pair that a row contributes to [GET /api/tasks/projects]: the
    rows with a [NULL] project id or name are left out by [where]. *)
Definition project_of (t : Task) : option ProjectJson :=
  match project_id t, project_name t with
  | Some i, Some n => Some (mkProjectJson i n)
  | _, _ => None
  end.

Section TaskProjects.

(** The groups in the order of [ORDER BY project_name ASC]. *)
Variable order_by_name : list ProjectJson -> list ProjectJson.

(** [GET /api/tasks/projects]: one entry for each group of
    [GROUP BY project_id, project_name]. *)
Definition list_task_projects (db : Db) : Response (list ProjectJson) :=
  Json 200 (order_by_name (remove_dups (omap project_of (all_rows db)))).

End TaskProjects.

(** ** The routes of [index.js] *)

(** [Task.count()] *)
Definition Task_count (db : Db) : Z := Z.of_nat (List.length (all_rows db)).

(** [Task.count({ where: { col: v } })]: the rows whose column is [v]. *)
Definition Task_count_where (c : Col) (v : string) (db : Db) : Z :=
  Z.of_nat
    (List.length
       (List.filter
          (fun t => match col_value c t with
                    | Some x => String.eqb x v
                    | None => false
                    end)
          (all_rows db))).

Record StatEntry : Type := mkStatEntry {
  count : Z;
  e_label : string;
  e_color : string
}.

Record StatsJson : Type := mkStatsJson {
  st_total : Z;
  st_completed : Z;
  st_inProgress : Z;
  st_completionRate : Z;
  st_statusStats : list (string * StatEntry);
  st_priorityStats : list (string * StatEntry)
}.

Section Stats.

(** [Math.round((completed / total) * 100)], a floating-point
    computation, for a positive [total]. *)
Variable round_percent : Z -> Z -> Z.

(** [GET /api/stats]: the objects [stats] and [priorityStats] are filled
    key by key, in the order of the catalogs. *)
Definition get_stats (db : Db) : Response StatsJson :=
  let stats :=
    map (fun o => (value o,
                   mkStatEntry (Task_count_where ColStatus (value o) db)
                     (label o) (color o)))
      getStatusOptions in
  let priorityStats :=
    map (fun o => (value o,
                   mkStatEntry (Task_count_where ColPriority (value o) db)
                     (label o) (color o)))
      getPriorityOptions in
  let totalTasks := Task_count db in
  let completedTasks := Task_count_where ColStatus "approved" db in
  let inProgressTasks := Task_count_where ColStatus "in_progress" db in
  Json 200
    {| st_total := totalTasks;
       st_completed := completedTasks;
       st_inProgress := inProgressTasks;
       st_completionRate :=
         if Z.ltb 0 totalTasks then round_percent completedTasks totalTasks else 0;
       st_statusStats := stats;
       st_priorityStats := priorityStats |}.

End Stats.

(** [s.replace(/\s+/g, '_')]: each run of white space becomes one
    underscore.  [in_run] tells that the previous character was white
    space. *)
Fixpoint replace_space_runs (in_run : bool) (s : string) : string :=
  match s with
  | EmptyString => EmptyString
  | String c r =>
      if Js.is_space c then
        if in_run then replace_space_runs true r
        else String "_" (replace_space_runs true r)
      else String c (replace_space_runs false r)
  end.

(** [c.toLowerCase()] on a code unit below 256: the ASCII capitals and
    the Latin-1 capitals (192 to 222, but for the sign 215) move up by
    32. *)
Definition lower_char (c : ascii) : ascii :=
  let n := N_of_ascii c in
  if (N.leb 65 n && N.leb n 90)
     || (N.leb 192 n && N.leb n 222 && negb (N.eqb n 215))
  then ascii_of_N (n + 32) else c.

(** [s.toLowerCase()] *)
Fixpoint toLowerCase (s : string) : string :=
  match s with
  | EmptyString => EmptyString
  | String c r => String (lower_char c) (toLowerCase r)
  end.

(** The id made up for a project without one. *)
Definition auto_id (name : string) : string :=
  "auto_" ++ toLowerCase (replace_space_runs false name).

(** [MAX(col)] over the values that are not [NULL], in the order of the
    code units; [NULL] when there is none. *)
Definition max_string (l : list string) : option string :=
  match l with
  | [] => None
  | x :: r => Some (fold_left (fun m y => if String.ltb m y then y else m) r x)
  end.

(** The names of [GROUP BY project_name] with [project_name != NULL]. *)
Definition project_names (db : Db) : list string :=
  remove_dups (omap project_name (all_rows db)).

(** [MAX(project_id)] of the group of a name. *)
Definition group_max_id (name : string) (db : Db) : option string :=
  max_string
    (omap project_id
       (List.filter
          (fun t => match project_name t with
                    | Some n => String.eqb n name
                    | None => false
                    end)
          (all_rows db))).

(** [project.project_id || `auto_...`] *)
Definition formatted_project (name : string) (db : Db) : ProjectJson :=
  {| p_id :=
       match group_max_id name db with
       | Some i => if Js.truthy i then i else auto_id name
       | None => auto_id name
       end;
     p_name := name |}.

Section IndexProjects.

(** The order in which the store returns the groups: the query asks for
    none. *)
Variable order_groups : list string -> list string.

(** [GET /api/projects] *)
Definition list_projects (db : Db) : Response (list ProjectJson) :=
  Json 200 (map (fun n => formatted_project n db) (order_groups (project_names db))).

End IndexProjects.

(** ** Runs with deletions *)

(** A write of the API or a deletion. *)
Inductive Op : Type :=
| Write (r : Request)
| Delete (key : Z).

Section Ops.

Variable parseDate : string -> option Z.
Variable parseFloat : string -> option Q.
Variable instance_methods : bool.

Definition exec (o : Op) (now : Z) (db : Db) : Db :=
  match o with
  | Write r => step parseDate parseFloat instance_methods r now db
  | Delete key => snd (delete_task key db)
  end.

Fixpoint exec_all (os : list (Op * Z)) (db : Db) : Db :=
  match os with
  | [] => db
  | (o, now) :: os' => exec_all os' (exec o now db)
  end.

End Ops.

(** The times of a run never go back, and start at [clock] or later. *)
Fixpoint chronological (clock : Z) (os : list (Op * Z)) : Prop :=
  match os with
  | [] => True
  | (_, now) :: os' => clock <= now /\ chronological now os'
  end.

(** The time of the last operation of a run that starts at [clock]. *)
Fixpoint final_clock (clock : Z) (os : list (Op * Z)) : Z :=
  match os with
  | [] => clock
  | (_, now) :: os' => final_clock now os'
  end.

(** ** Conditions on rows and tables *)

(** A property of every row of the table. *)
Definition db_forall (P : Task -> Prop) (db : Db) : Prop :=
  forall k t, findByPk k db = Some t -> P t.

(** The constraints of the model on the columns that the routes check:
    a trimmed title of 1 to 100 characters and allowed enum values. *)
Definition row_valid (t : Task) : Prop :=
  title t <> "" /\ Js.length (title t) <= 100 /\ Js.trim (title t) = title t /\
  Js.includes validPriorities (priority t) = true /\
  Js.includes validStatuses (status t) = true.

(** The derived timestamps are not after [clock], a completion time is
    only on an approved task, and it is not before the start time. *)
Definition times_ok (clock : Z) (t : Task) : Prop :=
  (forall a, started_at t = Some a -> a <= clock) /\
  (forall b, completed_at t = Some b -> b <= clock) /\
  (completed_at t <> None -> status t = "approved") /\
  (forall a b, started_at t = Some a -> completed_at t = Some b -> a <= b).

(** The string is empty or starts with a character that is not white
    space. *)
Definition no_leading_space (s : string) : Prop :=
  match s with
  | EmptyString => True
  | String c _ => Js.is_space c = false
  end.

(** The update data that an accepted request can carry. *)
Definition valid_update (u : UpdateData) : Prop :=
  (forall x, u_title u = Some x -> exists ti, x = Js.trim ti /\ check_title ti = None) /\
  (forall p, u_priority u = Some p -> Js.includes validPriorities p = true) /\
  (forall s, u_status u = Some s -> Js.includes validStatuses s = true).

(** What an update stores in a nullable column for the value sent: an
    absent key keeps the column, an empty string clears it, any other
    string is stored as [f] reads it. *)
Definition sent_column {A : Type} (f : string -> A) (old : option A)
    (sent : option string) : option A :=
  match sent with
  | None => old
  | Some s => if Js.truthy s then Some (f s) else None
  end.

(** What an update stores in a date or number column for the string
    sent: an absent key keeps the column, an empty string clears it, a
    string that does not parse leaves [NULL], any other one is stored as
    [parse] reads it. *)
Definition sent_parsed {A : Type} (parse : string -> option A) (old : option A)
    (sent : option string) : option A :=
  match sent with
  | None => old
  | Some s => if Js.truthy s then parse s else None
  end.

(** The keys of a body that the update route does not read. *)
Definition strip_unread_by_update (body : Body) : Body :=
  mkBody None (b_title body) (b_description body) (b_priority body)
    (b_status body) (b_assignee body) (b_due_date body) None None
    (b_tags body) (b_estimated_hours body) (b_actual_hours body)
    (b_project_id body) (b_project_name body).

(** The sum of the counts of a statistics object. *)
Definition sum_counts (stats : list (string * StatEntry)) : Z :=
  fold_right (fun e acc => count (snd e) + acc) 0 stats.

(** An ASCII capital letter. *)
Definition is_ascii_capital (c : ascii) : bool :=
  N.leb 65 (N_of_ascii c) && N.leb (N_of_ascii c) 90.

(** Every character of the string passes the test. *)
Fixpoint all_chars (f : ascii -> bool) (s : string) : bool :=
  match s with
  | EmptyString => true
  | String c r => f c && all_chars f r
  end.

(** The query [q] for the page [p]. *)
Definition set_page (p : Z) (q : Query) : Query :=
  mkQuery (q_status q) (q_priority q) (q_project_id q) (q_assignee q) (q_search q)
    (Some p) (q_limit q) (q_sortBy q) (q_sortOrder q).

(** The tasks of an answer of the list route. *)
Definition rows_of (r : Response ListJson) : list TaskJson :=
  match r with
  | Json _ out => data out
  | Fail _ _ => []
  end.

(** ** Sample requests and tables *)

(** Stand-ins for the two parsers, for concrete runs: every string but
    one is read as zero. *)
Definition sample_parseDate (s : string) : option Z :=
  if String.eqb s "not a date" then None else Some 0.
Definition sample_parseFloat (s : string) : option Q :=
  if String.eqb s "abc" then None else Some 0%Q.

(** A payload that creates a task directly in the status [approved]. *)
Definition approved_body : Body :=
  mkBody None (Some "t") None None (Some "approved") None None None None None
    None None None None.

(** A query that searches for [100%] and a task titled [100 percent]. *)
Definition percent_query : Query :=
  mkQuery None None None None (Some "100%") None None None None.

Definition percent_task : Task :=
  mkTask 1 "100 percent" None "medium" "todo" None None None None None None None
    None None 0 0.

(** A task started at the epoch and completed one day later. *)
Definition one_day_task : Task :=
  mkTask 1 "t" None "medium" "approved" None None (Some 0) (Some 86400000) None
    None None None None 0 86400000.

Definition one_day_db : Db := mkDb (<[1 := one_day_task]> ∅) 2.

Fixpoint repeat_char (n : nat) (c : ascii) : string :=
  match n with
  | O => EmptyString
  | S n' => String c (repeat_char n' c)
  end.

(** A payload whose title is 100 letters followed by a space. *)
Definition padded_body : Body :=
  mkBody None (Some (repeat_char 100 "a" ++ " ")) None None None None None None
    None None None None None None.

(** A payload whose title is three spaces. *)
Definition blank_body : Body :=
  mkBody None (Some "   ") None None None None None None
    None None None None None None.

(** A task in the status [todo] that has not started, alone in its table. *)
Definition todo_task : Task :=
  mkTask 1 "Write spec" None "high" "todo" (Some "alice") None None None
    (Some "Docs,API") None None None None 0 0.

Definition todo_db : Db := mkDb (<[1 := todo_task]> ∅) 2.

(** A payload that only carries a status. *)
Definition status_body (s : string) : Body :=
  mkBody None None None None (Some s) None None None None None None None None None.

(** A payload with a padded title, a priority, and the four keys that the
    create route does not read. *)
Definition spec_body : Body :=
  mkBody (Some 99) (Some " Write spec ") None (Some "high") None None None
    (Some "2020-01-01") (Some "2020-01-02") None None (Some "3") None None.

(** The task that [spec_body] creates at time 7 in the empty table. *)
Definition spec_task : Task :=
  mkTask 1 "Write spec" None "high" "todo" None None None None None None None
    None None 7 7.

(** A query for the tasks of [ALI]. *)
Definition shout_query : Query :=
  mkQuery None None None (Some "ALI") None None None None None.

(** The second page of a listing with one row a page. *)
Definition second_page : Query :=
  mkQuery None None None None None (Some 2) (Some 1) None None.

(** The first page of a listing with the limit -1, and with a limit of
    twenty digits. *)
Definition negative_limit : Query :=
  mkQuery None None None None None (Some 1) (Some (-1)) None None.

Definition huge_limit : Query :=
  mkQuery None None None None None (Some 1) (Some 100000000000000000000) None None.

(** A store that knows every order and leaves the rows as they come. *)
Definition any_order (sortBy sortOrder : string) (l : list Task) : option (list Task) :=
  Some l.

(** A query with a status set, an assignee and a search string. *)
Definition alice_docs : Query :=
  mkQuery (Some (QArr ["in_progress"; "todo"])) None None (Some "ALI") (Some "doc")
    None None None None.

(** The task [todo_task] once started at time 10, alone in its table. *)
Definition started_task : Task :=
  mkTask 1 "Write spec" None "high" "in_progress" (Some "alice") None (Some 10) None
    (Some "Docs,API") None None None None 0 10.

Definition started_db : Db := mkDb (<[1 := started_task]> ∅) 2.

(** A payload that retitles a task and clears its tags. *)
Definition retitle_body : Body :=
  mkBody None (Some " New title ") None None None None None None None (Some "")
    None None None None.

(** A payload with a date and a number of hours that do not parse. *)
Definition unparsed_body : Body :=
  mkBody None None None None None None (Some "not a date") None None None
    None (Some "abc") None None.

(** A query whose strings occur as they are in [todo_task]. *)
Definition plain_query : Query :=
  mkQuery (Some (QStr "todo")) None None (Some "ali") (Some "Docs") None None None None.

(** A query for a status that does not exist. *)
Definition misspelt_query : Query :=
  mkQuery (Some (QStr "done")) None None None None None None None None.

(** A task of a project, alone in its table. *)
Definition project_task : Task :=
  mkTask 1 "Plan" None "low" "todo" None None None None None None None
    (Some "TMS-001") (Some "Task Manager") 0 0.

Definition project_db : Db := mkDb (<[1 := project_task]> ∅) 2.

(** * Properties *)

(** ** The JavaScript and SQL primitives on examples *)

Example trim_both_ends : Js.trim "  Write spec  " = "Write spec".
Proof. reflexivity. Qed.

Example trim_blank : Js.trim "   " = "".
Proof. reflexivity. Qed.

Example ceil_div_examples :
  Js.ceil_div 7 2 = Js.Int 4 /\ Js.ceil_div 6 2 = Js.Int 3 /\
  Js.ceil_div 0 5 = Js.Int 0 /\ Js.ceil_div 3 0 = Js.PosInf.
Proof. repeat split; reflexivity. Qed.

Example round_div_examples :
  Js.round_div 3 2 = 2 /\ Js.round_div 5 4 = 1 /\ Js.round_div 1 100 = 0.
Proof. repeat split; reflexivity. Qed.

Example like_examples :
  Sql.like "%doc%" "API Docs" = true /\ Sql.like "%a_c%" "xabcx" = true /\
  Sql.like "%doc%" "dock" = true /\ Sql.like "%doc%" "do c" = false.
Proof. repeat split; reflexivity. Qed.

(** ** The hook and the store *)

Ltac case_strings :=
  repeat match goal with
  | |- context [String.eqb ?a ?b] => destruct (String.eqb_spec a b)
  | H : context [String.eqb ?a ?b] |- _ => destruct (String.eqb_spec a b)
  end.

Ltac hook_cases :=
  unfold beforeUpdate; cbn;
  repeat match goal with
  | |- context [if ?b then _ else _] => destruct b; cbn
  end.

Lemma beforeUpdate_frame prev now t :
  let t' := beforeUpdate prev now t in
  id t' = id t /\ title t' = title t /\ description t' = description t /\
  priority t' = priority t /\ status t' = status t /\ assignee t' = assignee t /\
  due_date t' = due_date t /\ tags t' = tags t /\
  estimated_hours t' = estimated_hours t /\ actual_hours t' = actual_hours t /\
  project_id t' = project_id t /\ project_name t' = project_name t /\
  created_at t' = created_at t /\ updated_at t' = updated_at t.
Proof. hook_cases; repeat split; reflexivity. Qed.

Lemma beforeUpdate_rules prev now t :
  derived_timestamps_rules prev (status t) (started_at t, completed_at t) now
    (started_at (beforeUpdate prev now t), completed_at (beforeUpdate prev now t)).
Proof.
  unfold derived_timestamps_rules, beforeUpdate; cbn.
  destruct (started_at t) as [s|] eqn:Hs;
    case_strings; cbn; rewrite ?Hs; repeat split; intros;
    intuition (try congruence).
Qed.

(** The rules fix the result: they describe a function. *)
Lemma derived_timestamps_rules_functional prev next existing now r1 r2 :
  derived_timestamps_rules prev next existing now r1 ->
  derived_timestamps_rules prev next existing now r2 ->
  r1 = r2.
Proof.
  unfold derived_timestamps_rules.
  destruct r1 as [a1 c1], r2 as [a2 c2], existing as [a c]; cbn.
  intros (H1 & H2 & H3 & H4 & H5 & H6) (K1 & K2 & K3 & K4 & K5 & K6).
  f_equal.
  - destruct (decide (next = "in_progress" /\ prev <> "in_progress" /\ a = None)) as [e|e].
    { rewrite H1, K1; auto. }
    destruct (decide (prev = "in_progress" /\ next = "todo")) as [b|b].
    { rewrite H4, K4; auto. }
    rewrite H5, K5; auto.
  - destruct (decide (next = "approved" /\ prev <> "approved")) as [e|e].
    { rewrite H2, K2; auto. }
    destruct (decide (prev = "approved" /\ next <> "approved")) as [b|b].
    { rewrite H3, K3; auto. }
    rewrite H6, K6; auto.
Qed.

Lemma set_values_frame u t :
  let t' := set_values u t in
  id t' = id t /\ started_at t' = started_at t /\
  completed_at t' = completed_at t /\ created_at t' = created_at t /\
  updated_at t' = updated_at t /\ status t' = default (status t) (u_status u).
Proof.
  destruct u as [a b c d e f g h i j k]; unfold set_values; cbn.
  destruct a, b, c, d, e, f, g, h, i, j, k; cbn; repeat split; reflexivity.
Qed.

(** An update that only carries a status changes no other column. *)
Lemma set_values_status_only s t :
  set_values (status_only s) t = set_status s t.
Proof. reflexivity. Qed.

(** With the status it was loaded with, the hook leaves a row as it
    is. *)
Lemma beforeUpdate_same_status now t : beforeUpdate (status t) now t = t.
Proof.
  destruct t; unfold beforeUpdate; cbn.
  case_strings; cbn; try reflexivity; congruence.
Qed.

(** The two courses of [instance.update]. *)
Lemma Instance_update_cases u now t db :
  (update_changes u t = true /\
   Instance_update u now t db =
     (set_updated_at now (beforeUpdate (status t) now (set_values u t)),
      mkDb (<[id t := set_updated_at now (beforeUpdate (status t) now (set_values u t))]>
              (tasks db)) (next_id db))) \/
  (update_changes u t = false /\ set_values u t = t /\
   Instance_update u now t db = (t, db)).
Proof.
  unfold Instance_update.
  destruct (update_changes u t) eqn:Hc; [left|right].
  - split; [reflexivity|]. cbn.
    destruct (beforeUpdate_frame (status t) now (set_values u t)) as (-> & _).
    destruct (set_values_frame u t) as (-> & _). reflexivity.
  - split; [reflexivity|]. split; [|reflexivity].
    unfold update_changes in Hc.
    destruct (bool_decide (set_values u t = t)) eqn:Hd; [|discriminate].
    apply bool_decide_eq_true in Hd. exact Hd.
Qed.

Lemma Instance_update_id u now t db :
  id (fst (Instance_update u now t db)) = id t.
Proof.
  destruct (Instance_update_cases u now t db) as [(_ & ->)|(_ & _ & ->)];
    [|reflexivity].
  cbn. destruct (beforeUpdate_frame (status t) now (set_values u t)) as (-> & _).
  apply set_values_frame.
Qed.

Lemma Instance_update_lookup u now t db :
  findByPk (id t) db = Some t ->
  findByPk (id t) (snd (Instance_update u now t db))
  = Some (fst (Instance_update u now t db)).
Proof.
  intros Ht.
  destruct (Instance_update_cases u now t db) as [(_ & ->)|(_ & _ & ->)];
    [|exact Ht].
  unfold findByPk; cbn. apply lookup_insert_eq.
Qed.

Lemma Instance_update_other u now t db k :
  k <> id t ->
  findByPk k (snd (Instance_update u now t db)) = findByPk k db.
Proof.
  intros Hk.
  destruct (Instance_update_cases u now t db) as [(_ & ->)|(_ & _ & ->)];
    [|reflexivity].
  unfold findByPk; cbn. apply lookup_insert_ne. congruence.
Qed.

Lemma Instance_update_next_id u now t db :
  next_id (snd (Instance_update u now t db)) = next_id db.
Proof.
  destruct (Instance_update_cases u now t db) as [(_ & ->)|(_ & _ & ->)];
    reflexivity.
Qed.

Lemma reload_Instance_update u now t db :
  findByPk (id t) db = Some t ->
  reload (fst (Instance_update u now t db)) (snd (Instance_update u now t db))
  = fst (Instance_update u now t db).
Proof.
  intros Ht. unfold reload. rewrite (Instance_update_id u now t db).
  rewrite (Instance_update_lookup u now t db Ht). reflexivity.
Qed.

(** What a write does to the status and to the derived timestamps of the
    row it updates. *)
Lemma Instance_update_timestamps u now t db :
  let t' := fst (Instance_update u now t db) in
  status t' = default (status t) (u_status u) /\
  derived_timestamps_rules (status t) (status t')
    (started_at t, completed_at t) now (started_at t', completed_at t').
Proof.
  destruct (Instance_update_cases u now t db) as [(_ & ->)|(_ & Hsame & ->)].
  - cbn.
    pose proof (beforeUpdate_rules (status t) now (set_values u t)) as Hr.
    destruct (beforeUpdate_frame (status t) now (set_values u t))
      as (_ & _ & _ & _ & Hst & _).
    destruct (set_values_frame u t) as (_ & Hsa & Hca & _ & _ & Hs).
    cbn in *. rewrite Hsa, Hca in Hr. rewrite Hst. split; [exact Hs|exact Hr].
  - cbn.
    destruct (set_values_frame u t) as (_ & _ & _ & _ & _ & Hs).
    cbn in Hs. rewrite Hsame in Hs. split; [exact Hs|].
    pose proof (beforeUpdate_rules (status t) now t) as Hr.
    rewrite beforeUpdate_same_status in Hr. exact Hr.
Qed.

(** The columns of the updated row that the hook does not touch are those
    that [instance.set] leaves. *)
Lemma Instance_update_columns u now t db :
  let t' := fst (Instance_update u now t db) in
  let v := set_values u t in
  id t' = id v /\ title t' = title v /\ description t' = description v /\
  priority t' = priority v /\ status t' = status v /\ assignee t' = assignee v /\
  due_date t' = due_date v /\ tags t' = tags v /\
  estimated_hours t' = estimated_hours v /\ actual_hours t' = actual_hours v /\
  project_id t' = project_id v /\ project_name t' = project_name v /\
  created_at t' = created_at v.
Proof.
  destruct (Instance_update_cases u now t db) as [(_ & ->)|(_ & Hsame & ->)].
  - cbn [fst].
    destruct (beforeUpdate_frame (status t) now (set_values u t))
      as (F1 & F2 & F3 & F4 & F5 & F6 & F7 & F8 & F9 & F10 & F11 & F12 & F13 & _).
    cbn zeta in *. unfold set_updated_at.
    cbn [id title description priority status assignee due_date tags
         estimated_hours actual_hours project_id project_name created_at].
    rewrite F1, F2, F3, F4, F5, F6, F7, F8, F9, F10, F11, F12, F13.
    repeat split; reflexivity.
  - cbn [fst]. cbn zeta. rewrite Hsame. repeat split; reflexivity.
Qed.

Lemma wf_empty_db : wf_db empty_db.
Proof. intros k t H. unfold empty_db in H; cbn in H. rewrite lookup_empty in H. discriminate. Qed.

Lemma Task_create_wf data now db :
  wf_db db -> wf_db (snd (Task_create data now db)).
Proof.
  intros Hwf k t. unfold Task_create, beforeCreate; cbn.
  rewrite lookup_insert. case_decide as Hk.
  - intros [= <-]. cbn. split; [congruence|lia].
  - intros H. apply Hwf in H. split; [tauto|lia].
Qed.

Lemma Instance_update_wf u now t db :
  wf_db db -> findByPk (id t) db = Some t ->
  wf_db (snd (Instance_update u now t db)).
Proof.
  intros Hwf Ht k t'.
  destruct (decide (k = id t)) as [->|Hk].
  - pose proof (Instance_update_lookup u now t db Ht) as Hl. unfold findByPk in Hl.
    rewrite Hl. intros [= <-]. split; [apply (Instance_update_id u now t db)|].
    apply Hwf in Ht. rewrite Instance_update_next_id. tauto.
  - pose proof (Instance_update_other u now t db k Hk) as Hl. unfold findByPk in Hl.
    rewrite Hl. intros H. apply Hwf in H. rewrite Instance_update_next_id. exact H.
Qed.

(** ** The write routes *)

Section RouteProperties.

Variable parseDate : string -> option Z.
Variable parseFloat : string -> option Q.
Variable instance_methods : bool.

Local Abbreviation POST := (create_task parseDate parseFloat instance_methods).
Local Abbreviation PUT := (update_task parseDate parseFloat instance_methods).
Local Abbreviation PATCH := (patch_status instance_methods).
Local Abbreviation updateData_of := (build_updateData parseDate parseFloat).
Local Abbreviation enriched := (enrich instance_methods).
Local Abbreviation do_step := (step parseDate parseFloat instance_methods).
Local Abbreviation do_run := (run parseDate parseFloat instance_methods).
Local Abbreviation created_json := (enrich_created instance_methods).

Lemma valid_status_truthy s : Js.includes validStatuses s = true -> Js.truthy s = true.
Proof. destruct s; [discriminate|reflexivity]. Qed.

(** The update route on an existing row and a body that passes the
    checks: one [instance.update], answered with 200. *)
Lemma update_task_accepted key body now db t :
  findByPk key db = Some t -> id t = key -> validate_update body = None ->
  PUT key body now db
  = (Json 200 (enriched (fst (Instance_update (updateData_of body) now t db))),
     snd (Instance_update (updateData_of body) now t db)).
Proof.
  intros Ht Hid Hv. unfold update_task. rewrite Ht, Hv.
  rewrite reload_Instance_update; [reflexivity|]. rewrite Hid. exact Ht.
Qed.

(** The quick status route on an existing row and a valid status. *)
Lemma patch_status_accepted key body s now db t :
  findByPk key db = Some t -> id t = key -> b_status body = Some s ->
  Js.includes validStatuses s = true ->
  let t' := fst (Instance_update (status_only s) now t db) in
  PATCH key body now db
  = (Json 200
       {| s_id := id t'; s_status := status t';
          s_statusText := if instance_methods then getStatusText t' else status t';
          s_started_at := started_at t'; s_completed_at := completed_at t' |},
     snd (Instance_update (status_only s) now t db)).
Proof.
  intros Ht Hid Hs Hv. cbn. unfold patch_status. rewrite Hs.
  rewrite (valid_status_truthy s Hv), Hv, Ht. cbn [negb].
  rewrite reload_Instance_update; [reflexivity|]. rewrite Hid. exact Ht.
Qed.

(** A request that is turned down writes nothing. *)
Lemma create_task_rejected body now db :
  http_status (fst (POST body now db)) <> 201 ->
  snd (POST body now db) = db.
Proof.
  unfold create_task.
  destruct (b_title body) as [ti|]; [|reflexivity].
  destruct (check_title ti); [reflexivity|].
  destruct (negb _); [reflexivity|]. destruct (negb _); [reflexivity|].
  cbn. congruence.
Qed.

Lemma update_task_rejected key body now db :
  http_status (fst (PUT key body now db)) <> 200 ->
  snd (PUT key body now db) = db.
Proof.
  unfold update_task.
  destruct (findByPk key db); [|reflexivity].
  destruct (validate_update body); [reflexivity|]. cbn. congruence.
Qed.

Lemma patch_status_rejected key body now db :
  http_status (fst (PATCH key body now db)) <> 200 ->
  snd (PATCH key body now db) = db.
Proof.
  unfold patch_status.
  destruct (b_status body) as [s|]; [|reflexivity].
  destruct (negb _); [reflexivity|]. destruct (negb _); [reflexivity|].
  destruct (findByPk key db); [|reflexivity]. cbn. congruence.
Qed.

(** Every write keeps the table well formed. *)
Lemma step_wf r now db : wf_db db -> wf_db (do_step r now db).
Proof.
  intros Hwf. destruct r as [body|key body|key body]; cbn.
  - unfold create_task.
    destruct (b_title body) as [ti|]; [|exact Hwf].
    destruct (check_title ti); [exact Hwf|].
    destruct (negb _); [exact Hwf|]. destruct (negb _); [exact Hwf|].
    cbn [snd]. apply Task_create_wf, Hwf.
  - unfold update_task.
    destruct (findByPk key db) as [t|] eqn:Ht; [|exact Hwf].
    destruct (validate_update body); [exact Hwf|]. cbn [snd].
    apply Instance_update_wf; [exact Hwf|].
    destruct (Hwf key t Ht) as [-> _]. exact Ht.
  - unfold patch_status.
    destruct (b_status body) as [s|]; [|exact Hwf].
    destruct (negb _); [exact Hwf|]. destruct (negb _); [exact Hwf|].
    destruct (findByPk key db) as [t|] eqn:Ht; [|exact Hwf]. cbn [snd].
    apply Instance_update_wf; [exact Hwf|].
    destruct (Hwf key t Ht) as [-> _]. exact Ht.
Qed.

Lemma run_wf rs db : wf_db db -> wf_db (do_run rs db).
Proof.
  revert db. induction rs as [|[r now] rs IH]; intros db Hwf; cbn; [exact Hwf|].
  apply IH, step_wf, Hwf.
Qed.

(** ** The status lifecycle *)


(** C2. Both status-affecting writes, the update route with a body that
    passes its checks and the quick status route with a valid status, are
    answered with 200 and leave the row with the requested status and with
    the derived timestamps that the five rules of the contract give, the
    previous status being the one stored just before the write. *)
Theorem status_write_follows_rules key body s now db t :
  wf_db db ->
  findByPk key db = Some t ->
  b_status body = Some s ->
  Js.includes validStatuses s = true ->
  (validate_update body = None ->
   exists t',
     http_status (fst (PUT key body now db)) = 200 /\
     findByPk key (snd (PUT key body now db)) = Some t' /\
     status t' = s /\
     derived_timestamps_rules (status t) s (started_at t, completed_at t) now
       (started_at t', completed_at t')) /\
  (exists t',
     http_status (fst (PATCH key body now db)) = 200 /\
     findByPk key (snd (PATCH key body now db)) = Some t' /\
     status t' = s /\
     derived_timestamps_rules (status t) s (started_at t, completed_at t) now
       (started_at t', completed_at t')).
Proof.
  intros Hwf Ht Hs Hvalid.
  destruct (Hwf key t Ht) as [Hid _].
  split.
  - intros Hv. rewrite (update_task_accepted key body now db t Ht Hid Hv).
    exists (fst (Instance_update (updateData_of body) now t db)).
    destruct (Instance_update_timestamps (updateData_of body) now t db) as [Hst Hr].
    set (t' := fst (Instance_update (updateData_of body) now t db)) in *.
    assert (Hst' : status t' = s).
    { rewrite Hst. cbn. rewrite Hs. reflexivity. }
    cbn [fst snd http_status].
    split; [reflexivity|].
    split; [rewrite <- Hid; apply (Instance_update_lookup _ now t db); congruence|].
    split; [exact Hst'|]. rewrite Hst' in Hr. exact Hr.
  - rewrite (patch_status_accepted key body s now db t Ht Hid Hs Hvalid).
    exists (fst (Instance_update (status_only s) now t db)).
    destruct (Instance_update_timestamps (status_only s) now t db) as [Hst Hr].
    set (t' := fst (Instance_update (status_only s) now t db)) in *.
    change (status t' = s) in Hst.
    cbn [fst snd http_status].
    split; [reflexivity|].
    split; [rewrite <- Hid; apply (Instance_update_lookup _ now t db); congruence|].
    split; [exact Hst|]. rewrite Hst in Hr. exact Hr.
Qed.

(** The row under a key keeps its start time through every request but
    an accepted write to this row that asks for the status [todo]. *)
Lemma step_keeps_started_at r now db key t0 t :
  wf_db db ->
  findByPk key db = Some t ->
  started_at t = Some t0 ->
  ~ accepted_status_write key "todo" r ->
  exists t', findByPk key (do_step r now db) = Some t' /\ started_at t' = Some t0.
Proof.
  intros Hwf Ht Hsa Hreq.
  assert (Hupd : forall u k tk,
             findByPk k db = Some tk -> (k = key -> u_status u <> Some "todo") ->
             exists t', findByPk key (snd (Instance_update u now tk db)) = Some t'
                        /\ started_at t' = Some t0).
  { intros u k tk Hk Hu. destruct (Hwf k tk Hk) as [Hid _].
    destruct (decide (key = k)) as [->|Hne].
    - assert (tk = t) by congruence. subst tk.
      specialize (Hu eq_refl).
      exists (fst (Instance_update u now t db)). split.
      + rewrite <- Hid. apply (Instance_update_lookup u now t db). congruence.
      + destruct (Instance_update_timestamps u now t db) as [Hst Hr].
        destruct Hr as (_ & _ & _ & _ & Hkeep & _). cbn [fst snd] in Hkeep.
        rewrite Hkeep; [exact Hsa| |].
        * intros (_ & _ & Hnone). congruence.
        * intros [Hp Hn]. rewrite Hst in Hn. destruct (u_status u) as [s|]; cbn in Hn.
          -- congruence.
          -- rewrite Hp in Hn. discriminate.
    - exists t. split; [|exact Hsa].
      rewrite Instance_update_other; [exact Ht|]. congruence. }
  destruct r as [body|k body|k body]; cbn in *.
  - unfold create_task.
    destruct (b_title body) as [ti|]; [|eauto].
    destruct (check_title ti); [eauto|].
    destruct (negb _); [eauto|]. destruct (negb _); [eauto|].
    cbn. exists t. split; [|exact Hsa].
    unfold findByPk in *; cbn. rewrite lookup_insert_ne; [exact Ht|].
    destruct (Hwf key t Ht). lia.
  - unfold update_task.
    destruct (findByPk k db) as [tk|] eqn:Hk; [|eauto].
    destruct (validate_update body) eqn:Hv; [eauto|]. cbn [snd].
    apply (Hupd _ k tk Hk). intros -> Hb. apply Hreq. auto.
  - unfold patch_status.
    destruct (b_status body) as [s|] eqn:Hs; [|eauto].
    destruct (negb _); [eauto|].
    destruct (Js.includes validStatuses s) eqn:Hv; cbn [negb]; [|eauto].
    destruct (findByPk k db) as [tk|] eqn:Hk; [|eauto]. cbn [snd].
    apply (Hupd _ k tk Hk). intros -> Hb. cbn in Hb. injection Hb as ->.
    apply Hreq. auto.
Qed.

Lemma run_keeps_started_at rs db key t0 t :
  wf_db db ->
  findByPk key db = Some t ->
  started_at t = Some t0 ->
  Forall (fun rn => ~ accepted_status_write key "todo" (fst rn)) rs ->
  exists t', findByPk key (do_run rs db) = Some t' /\ started_at t' = Some t0.
Proof.
  revert db t. induction rs as [|[r now] rs IH]; intros db t Hwf Ht Hsa Hall; cbn.
  - eauto.
  - apply Forall_cons in Hall as [Hr Hall]. cbn in Hr.
    destruct (step_keeps_started_at r now db key t0 t Hwf Ht Hsa Hr) as (t1 & Ht1 & Hsa1).
    apply (IH _ t1); auto. apply step_wf, Hwf.
Qed.

(** C4. A task that has no start time and is not in progress gets the time
    of the write as its start time when a write takes it to [in_progress].
    After any further run of requests in which no accepted write to this
    task asks for the status [todo], the start time is still that one;
    the run may create tasks, write to other tasks with any status, hold
    requests that are turned down, and take this task through any other
    status (so a later [rejected_revision] to [in_progress] does not
    reset it). *)
Theorem started_at_set_once key first now0 rest db t :
  wf_db db ->
  findByPk key db = Some t ->
  started_at t = None ->
  status t <> "in_progress" ->
  accepted_status_write key "in_progress" first ->
  Forall (fun rn => ~ accepted_status_write key "todo" (fst rn)) rest ->
  (exists t1, findByPk key (do_step first now0 db) = Some t1 /\
              status t1 = "in_progress" /\ started_at t1 = Some now0) /\
  (exists t', findByPk key (do_run ((first, now0) :: rest) db) = Some t' /\
              started_at t' = Some now0).
Proof.
  intros Hwf Ht Hnone Hst Hfirst Hrest.
  destruct (Hwf key t Ht) as [Hid _].
  assert (H1 : exists t1, findByPk key (do_step first now0 db) = Some t1 /\
                          status t1 = "in_progress" /\ started_at t1 = Some now0).
  { assert (Hupd : forall u, u_status u = Some "in_progress" ->
               let t1 := fst (Instance_update u now0 t db) in
               findByPk key (snd (Instance_update u now0 t db)) = Some t1 /\
               status t1 = "in_progress" /\ started_at t1 = Some now0).
    { intros u Hu. cbn zeta.
      destruct (Instance_update_timestamps u now0 t db) as [Hs Hr].
      rewrite Hu in Hs. cbn in Hs.
      split; [rewrite <- Hid; apply (Instance_update_lookup u now0 t db); congruence|].
      split; [exact Hs|].
      destruct Hr as (Henter & _). cbn [fst snd] in Henter. apply Henter. auto. }
    destruct first as [body|k body|k body]; cbn in Hfirst; [contradiction| |].
    - destruct Hfirst as (-> & Hb & Hv). cbn.
      rewrite (update_task_accepted key body now0 db t Ht Hid Hv). cbn [snd].
      eexists. apply Hupd. cbn. exact Hb.
    - destruct Hfirst as (-> & Hb & Hv). cbn.
      rewrite (patch_status_accepted key body _ now0 db t Ht Hid Hb Hv). cbn [snd].
      eexists. apply Hupd. reflexivity. }
  split; [exact H1|].
  destruct H1 as (t1 & Ht1 & _ & Hsa1). cbn.
  apply (run_keeps_started_at rest _ key now0 t1); auto. apply step_wf, Hwf.
Qed.

(** ** Creation and validation *)

Lemma check_title_None ti :
  check_title ti = None <-> (blank ti || Z.ltb 100 (Js.length ti)) = false.
Proof.
  unfold check_title, blank. destruct ti as [|c r]; [cbn; split; discriminate|].
  cbn [Js.truthy negb orb].
  destruct (Z.eqb _ 0); [cbn; split; discriminate|]. cbn [orb].
  destruct (Z.ltb 100 _); split; congruence.
Qed.


(** The create route either answers 400 and writes nothing, or answers 201
    with the row it has just inserted under the next key of the table. *)
Lemma create_task_cases body now db :
  (create_rejection body = true /\
   http_status (fst (POST body now db)) = 400 /\
   snd (POST body now db) = db) \/
  (create_rejection body = false /\
   exists t,
     POST body now db
     = (Json 201 (created_json t), mkDb (<[next_id db := t]> (tasks db)) (next_id db + 1)) /\
     id t = next_id db /\
     status t = default "todo" (b_status body) /\
     priority t = default "medium" (b_priority body) /\
     started_at t = None /\ completed_at t = None /\ actual_hours t = None).
Proof.
  unfold create_task, create_rejection.
  destruct (b_title body) as [ti|]; cbn [from_option]; [|left; auto].
  pose proof (check_title_None ti) as Hc.
  destruct (check_title ti) as [e|].
  { left. destruct (blank ti || Z.ltb 100 (Js.length ti)); [auto|].
    destruct Hc as [_ Hc]. specialize (Hc eq_refl). discriminate. }
  destruct Hc as [Hc _]. rewrite (Hc eq_refl). cbn [orb].
  assert (Hp : from_option (Js.includes validPriorities) true (b_priority body)
               = Js.includes validPriorities (default "medium" (b_priority body))).
  { destruct (b_priority body); reflexivity. }
  assert (Hs : from_option (Js.includes validStatuses) true (b_status body)
               = Js.includes validStatuses (default "todo" (b_status body))).
  { destruct (b_status body); reflexivity. }
  rewrite Hp, Hs.
  destruct (Js.includes validPriorities _); cbn [negb orb]; [|left; auto].
  destruct (Js.includes validStatuses _); cbn [negb orb]; [|left; auto].
  right. split; [reflexivity|]. eexists. split; [reflexivity|].
  cbn. repeat split; reflexivity.
Qed.

(** C7, as amended. A create payload whose title is not empty once
    trimmed and has at most 100 characters as it is sent, and whose
    priority and status, when given, are among the allowed values, is
    answered with 201; the created task is stored with the trimmed
    title, has status [todo] unless one was given, priority [medium]
    unless one was given, and neither a start time nor a completion
    time. *)
Theorem create_valid_payload body ti now db :
  b_title body = Some ti ->
  Js.trim ti <> "" ->
  (String.length ti <= 100)%nat ->
  from_option (Js.includes validPriorities) true (b_priority body) = true ->
  from_option (Js.includes validStatuses) true (b_status body) = true ->
  exists t,
    fst (POST body now db) = Json 201 (created_json t) /\
    findByPk (id t) (snd (POST body now db)) = Some t /\
    title t = Js.trim ti /\
    status t = default "todo" (b_status body) /\
    priority t = default "medium" (b_priority body) /\
    started_at t = None /\ completed_at t = None.
Proof.
  intros Hti Hne Hlen Hp Hs.
  destruct (create_task_cases body now db) as [(Hrej & _)|(_ & t & Heq & Hid & Hst & Hpr & Hsa & Hca & _)].
  - exfalso. unfold create_rejection in Hrej. rewrite Hti, Hp, Hs in Hrej.
    cbn [from_option negb orb] in Hrej. rewrite !orb_false_r in Hrej.
    apply orb_true_iff in Hrej as [Hb|Hl].
    + unfold blank, Js.length in Hb. apply Z.eqb_eq in Hb.
      destruct (Js.trim ti); [congruence|cbn in Hb; lia].
    + apply Z.ltb_lt in Hl. unfold Js.length in Hl. lia.
  - exists t. rewrite Heq. cbn [fst snd]. split; [reflexivity|].
    split; [unfold findByPk; cbn; rewrite Hid; apply lookup_insert_eq|].
    split; [|auto].
    revert Heq. unfold create_task. rewrite Hti.
    destruct (check_title ti); [discriminate|].
    destruct (negb _); [discriminate|]. destruct (negb _); [discriminate|].
    unfold Task_create, beforeCreate. cbn.
    intros Heq. injection Heq as Heq _. rewrite <- Heq. reflexivity.
Qed.

(** C10. The create route does not read the keys [id], [started_at],
    [completed_at] and [actual_hours] of the payload: whatever they hold,
    the answer and the table are those of the payload without them, and a
    created task has the next key of the table, which no row had, and
    [null] in the three columns. *)
Theorem create_ignores_unread_keys body now db t db' :
  wf_db db ->
  POST body now db = (Json 201 (created_json t), db') ->
  POST body now db = POST (strip_ignored body) now db /\
  id t = next_id db /\
  findByPk (id t) db = None /\
  findByPk (id t) db' = Some t /\
  started_at t = None /\ completed_at t = None /\ actual_hours t = None.
Proof.
  intros Hwf Hcreated.
  split; [reflexivity|].
  destruct (create_task_cases body now db) as [(_ & H400 & _)|(_ & t1 & Heq & Hid & _ & _ & Hsa & Hca & Hah)].
  { rewrite Hcreated in H400. cbn in H400. discriminate. }
  rewrite Heq in Hcreated. injection Hcreated as Hrow Hdb. subst t1 db'.
  repeat split; auto.
  - rewrite Hid. unfold findByPk.
    destruct (tasks db !! next_id db) as [x|] eqn:Hx; [|reflexivity].
    apply Hwf in Hx. lia.
  - rewrite Hid. unfold findByPk. cbn. apply lookup_insert_eq.
Qed.

(** C8, as amended. The create route answers 400 exactly when the title is
    missing, or blank once trimmed, or longer than 100 characters as sent,
    or a given priority or status is not an allowed value; this on every
    table. The update route, for a task that exists, answers 400 exactly
    when a given title is blank once trimmed or longer than 100
    characters as sent, or a given priority or status is not an allowed
    value; for a task that does not exist it answers 404 whatever the
    body holds. A request answered with 400 or 404 leaves the table as it
    was; a create request that is not turned down is answered with 201
    and an update request that is not with 200. *)
Theorem validation_rejects_exactly key body now db :
  ((http_status (fst (POST body now db)) = 400 <-> create_rejection body = true) /\
   (create_rejection body = true -> snd (POST body now db) = db) /\
   (create_rejection body = false -> http_status (fst (POST body now db)) = 201)) /\
  (forall t, findByPk key db = Some t ->
     (http_status (fst (PUT key body now db)) = 400 <-> update_rejection body = true) /\
     (update_rejection body = true -> snd (PUT key body now db) = db) /\
     (update_rejection body = false -> http_status (fst (PUT key body now db)) = 200)) /\
  (findByPk key db = None ->
     http_status (fst (PUT key body now db)) = 404 /\ snd (PUT key body now db) = db).
Proof.
  assert (Hcreate : (create_rejection body = true /\
                     http_status (fst (POST body now db)) = 400 /\
                     snd (POST body now db) = db) \/
                    (create_rejection body = false /\
                     http_status (fst (POST body now db)) = 201)).
  { destruct (create_task_cases body now db) as [H|(Hr & t1 & Heq & _)]; [left; exact H|].
    right. rewrite Heq. auto. }
  assert (Hupdate : forall t, findByPk key db = Some t ->
                    (update_rejection body = true /\
                     http_status (fst (PUT key body now db)) = 400 /\
                     snd (PUT key body now db) = db) \/
                    (update_rejection body = false /\
                     http_status (fst (PUT key body now db)) = 200)).
  { intros t Ht. unfold update_task, update_rejection, validate_update. rewrite Ht.
    destruct (b_title body) as [ti|]; cbn [from_option].
    - pose proof (check_title_None ti) as Hc.
      destruct (check_title ti) as [e|].
      + left. destruct (blank ti || Z.ltb 100 (Js.length ti)); [auto|].
        destruct Hc as [_ Hc]. specialize (Hc eq_refl). discriminate.
      + destruct Hc as [Hc _]. rewrite (Hc eq_refl). cbn [orb].
        destruct (from_option (Js.includes validPriorities) true (b_priority body));
          cbn [negb orb]; [|left; auto].
        destruct (from_option (Js.includes validStatuses) true (b_status body));
          cbn [negb orb]; [|left; auto].
        right. auto.
    - cbn [orb].
      destruct (from_option (Js.includes validPriorities) true (b_priority body));
        cbn [negb orb]; [|left; auto].
      destruct (from_option (Js.includes validStatuses) true (b_status body));
        cbn [negb orb]; [|left; auto].
      right. auto. }
  split; [|split].
  - repeat split.
    + intros H. destruct Hcreate as [(Hr & _)|(_ & H201)]; [exact Hr|].
      rewrite H in H201. discriminate.
    + intros H. destruct Hcreate as [(_ & H400 & _)|(Hr & _)]; [exact H400|]. congruence.
    + intros H. destruct Hcreate as [(_ & _ & Hdb)|(Hr & _)]; [exact Hdb|]. congruence.
    + intros H. destruct Hcreate as [(Hr & _)|(_ & H201)]; [congruence|exact H201].
  - intros t Ht. specialize (Hupdate t Ht). repeat split.
    + intros H. destruct Hupdate as [(Hr & _)|(_ & H200)]; [exact Hr|].
      rewrite H in H200. discriminate.
    + intros H. destruct Hupdate as [(_ & H400 & _)|(Hr & _)]; [exact H400|]. congruence.
    + intros H. destruct Hupdate as [(_ & _ & Hdb)|(Hr & _)]; [exact Hdb|]. congruence.
    + intros H. destruct Hupdate as [(Hr & _)|(_ & H200)]; [congruence|exact H200].
  - intros Hnone. unfold update_task. rewrite Hnone. split; reflexivity.
Qed.

(** ** The completion time and the quick status route *)


(** The hook keeps the completion time in do_step with the status. *)
Lemma Instance_update_keeps_completed_inv u now t db :
  completed_iff_approved t ->
  completed_iff_approved (fst (Instance_update u now t db)).
Proof.
  intros Hinv.
  destruct (Instance_update_timestamps u now t db) as [_ Hr].
  set (t' := fst (Instance_update u now t db)) in *.
  unfold completed_iff_approved in *.
  destruct Hr as (_ & Hin & Hout & _ & _ & Hkeep). cbn [fst snd] in *.
  destruct (decide (status t' = "approved")) as [Ha|Ha];
    destruct (decide (status t = "approved")) as [Hb|Hb].
  - rewrite Hkeep; tauto.
  - rewrite Hin; [|tauto]. split; [tauto|discriminate].
  - rewrite Hout; tauto.
  - rewrite Hkeep; tauto.
Qed.

(** The update and quick status routes keep the invariant of the
    completion time on every row. *)
Lemma status_write_keeps_completed_inv r now db :
  wf_db db -> db_completed_inv db ->
  (forall body, r <> Create body) ->
  db_completed_inv (do_step r now db).
Proof.
  intros Hwf Hinv Hr.
  assert (Hupd : forall u k tk, findByPk k db = Some tk ->
                   db_completed_inv (snd (Instance_update u now tk db))).
  { intros u k tk Hk k' t' Hk'. destruct (Hwf k tk Hk) as [Hid _].
    destruct (decide (k' = id tk)) as [->|Hne].
    - rewrite (Instance_update_lookup u now tk db) in Hk' by congruence.
      injection Hk' as <-.
      apply (Instance_update_keeps_completed_inv u now tk db), (Hinv k tk Hk).
    - rewrite Instance_update_other in Hk' by exact Hne. apply (Hinv k' t' Hk'). }
  destruct r as [body|k body|k body]; cbn.
  - destruct (Hr body eq_refl).
  - unfold update_task.
    destruct (findByPk k db) as [tk|] eqn:Hk; [|exact Hinv].
    destruct (validate_update body); [exact Hinv|]. cbn [snd]. eapply Hupd, Hk.
  - unfold patch_status.
    destruct (b_status body) as [s|]; [|exact Hinv].
    destruct (negb _); [exact Hinv|]. destruct (negb _); [exact Hinv|].
    destruct (findByPk k db) as [tk|] eqn:Hk; [|exact Hinv]. cbn [snd].
    eapply Hupd, Hk.
Qed.

(** C1, at the failing input. Creating a task directly in the status
    [approved] on the empty table is answered with 201 and stores a row
    that is approved and has no completion time: the invariant of the
    completion time does not hold after this create. *)
Theorem create_approved_without_completed_at now :
  http_status (fst (POST approved_body now empty_db)) = 201 /\
  (exists t, findByPk 1 (do_step (Create approved_body) now empty_db) = Some t /\
             status t = "approved" /\ completed_at t = None) /\
  ~ db_completed_inv (do_step (Create approved_body) now empty_db).
Proof.
  assert (H : exists t, findByPk 1 (do_step (Create approved_body) now empty_db) = Some t /\
                        status t = "approved" /\ completed_at t = None).
  { eexists. split; [apply lookup_insert_eq|]. split; reflexivity. }
  split; [reflexivity|]. split; [exact H|].
  destruct H as (t & Ht & Hs & Hc). intros Hinv.
  apply (Hinv 1 t Ht) in Hs. congruence.
Qed.

(** C9. A quick status request that is answered with 200 leaves, in the
    row it addresses, every column other than [status], [started_at],
    [completed_at] and [updated_at] as it was, and leaves the other rows
    untouched. *)
Theorem patch_status_frame key body now db t :
  wf_db db ->
  findByPk key db = Some t ->
  http_status (fst (PATCH key body now db)) = 200 ->
  (exists t',
     findByPk key (snd (PATCH key body now db)) = Some t' /\
     id t' = id t /\ title t' = title t /\ description t' = description t /\
     priority t' = priority t /\ assignee t' = assignee t /\
     due_date t' = due_date t /\ tags t' = tags t /\
     estimated_hours t' = estimated_hours t /\ actual_hours t' = actual_hours t /\
     project_id t' = project_id t /\ project_name t' = project_name t /\
     created_at t' = created_at t) /\
  (forall k, k <> key ->
     findByPk k (snd (PATCH key body now db)) = findByPk k db).
Proof.
  intros Hwf Ht H200.
  destruct (Hwf key t Ht) as [Hid _].
  assert (Hacc : exists s, b_status body = Some s /\ Js.includes validStatuses s = true).
  { revert H200. unfold patch_status.
    destruct (b_status body) as [s|]; [|discriminate].
    destruct (negb (Js.truthy s)); [discriminate|].
    destruct (Js.includes validStatuses s) eqn:Hv; [eauto|discriminate]. }
  destruct Hacc as (s & Hs & Hv).
  rewrite (patch_status_accepted key body s now db t Ht Hid Hs Hv). cbn [fst snd].
  split.
  - exists (fst (Instance_update (status_only s) now t db)).
    split; [rewrite <- Hid; apply (Instance_update_lookup _ now t db); congruence|].
    destruct (Instance_update_columns (status_only s) now t db)
      as (F1 & F2 & F3 & F4 & _ & F6 & F7 & F8 & F9 & F10 & F11 & F12 & F13).
    cbn zeta in *. rewrite set_values_status_only in *.
    rewrite F1, F2, F3, F4, F6, F7, F8, F9, F10, F11, F12, F13.
    repeat split; reflexivity.
  - intros k Hk. apply Instance_update_other. congruence.
Qed.

End RouteProperties.

(** ** The list route *)

Lemma like_percent s : Sql.like "%" s = true.
Proof. induction s as [|c s IH]; [reflexivity|]. cbn in *. exact IH. Qed.

Lemma like_prefix n s :
  wildcard_free n = true -> Sql.like (n ++ "%") s = starts_with_ci n s.
Proof.
  revert s. induction n as [|c n IH]; intros s Hn.
  - rewrite like_percent. destruct s; reflexivity.
  - cbn in Hn. apply andb_true_iff in Hn as [Hc Hn].
    apply andb_true_iff in Hc as [Hp Hu].
    apply negb_true_iff in Hp, Hu.
    change (String c n ++ "%") with (String c (n ++ "%")).
    cbn [Sql.like]. rewrite Hp.
    destruct s as [|d s]; [reflexivity|].
    rewrite Hu. cbn [orb starts_with_ci]. rewrite (IH s Hn). reflexivity.
Qed.

(** For a string without wildcards, the pattern [%needle%] selects the
    strings that contain it up to ASCII case. *)
Lemma like_contains_ci n s :
  wildcard_free n = true -> Sql.like ("%" ++ n ++ "%") s = contains_ci n s.
Proof.
  intros Hn. change ("%" ++ n ++ "%") with (String Sql.percent (n ++ "%")).
  induction s as [|d s IH].
  - cbn. rewrite (like_prefix n "" Hn). reflexivity.
  - cbn [contains_ci]. rewrite <- IH, <- (like_prefix n (String d s) Hn).
    reflexivity.
Qed.

(** A task completed less than fifty days after its start has the
    duration 0. *)
Lemma getDuration_below_fifty_days t s c :
  started_at t = Some s -> completed_at t = Some c ->
  0 <= c - s < 4320000000 ->
  getDuration t = Some (0 # 100)%Q.
Proof.
  intros Hs Hc Hd. unfold getDuration. rewrite Hs, Hc.
  unfold Js.round_div. rewrite Z.div_small by lia. reflexivity.
Qed.

Lemma where_set_piece v col t :
  forallb (Sql.eval_cond t)
    (if qval_truthy v then [OpIn col (from_option to_array [] v)] else [])
  = from_option (member (col_value col t)) true (supplied_set v).
Proof.
  destruct v as [[s|l]|]; cbn; [destruct s; cbn| |reflexivity];
    rewrite ?andb_true_r; reflexivity.
Qed.

Lemma where_assignee_piece a t :
  from_option wildcard_free true (supplied_text a) = true ->
  forallb (Sql.eval_cond t)
    (match a with
     | Some x => if Js.truthy x then [OpLike ColAssignee ("%" ++ x ++ "%")] else []
     | None => []
     end)
  = from_option (fun x => occurs_in contains_ci x (assignee t)) true (supplied_text a).
Proof.
  destruct a as [x|]; [|reflexivity]. cbn. destruct (Js.truthy x); [|reflexivity].
  cbn. intros Hx. rewrite andb_true_r.
  destruct (assignee t) as [y|]; cbn; [apply like_contains_ci, Hx|reflexivity].
Qed.

Lemma where_search_piece s t :
  from_option wildcard_free true (supplied_text s) = true ->
  forallb (Sql.eval_cond t)
    (match s with
     | Some x =>
         if Js.truthy x then
           [OpOrLike [(ColTitle, "%" ++ x ++ "%");
                      (ColDescription, "%" ++ x ++ "%");
                      (ColTags, "%" ++ x ++ "%")]]
         else []
     | None => []
     end)
  = from_option
      (fun x => occurs_in contains_ci x (Some (title t))
                || occurs_in contains_ci x (description t)
                || occurs_in contains_ci x (tags t))
      true (supplied_text s).
Proof.
  destruct s as [x|]; [|reflexivity]. cbn. destruct (Js.truthy x); [|reflexivity].
  cbn. intros Hx. rewrite andb_true_r, orb_false_r, orb_assoc.
  rewrite (like_contains_ci x (title t) Hx).
  destruct (description t) as [d|], (tags t) as [g|]; cbn;
    rewrite ?(like_contains_ci x _ Hx); reflexivity.
Qed.



Lemma ceil_div_pos n l :
  1 <= l ->
  exists k, Js.ceil_div n l = Js.Int k /\ (k - 1) * l < n <= k * l.
Proof.
  intros Hl. unfold Js.ceil_div.
  destruct (Z.eqb_spec l 0) as [->|_]; [lia|].
  exists (- (- n / l)). split; [reflexivity|].
  pose proof (Z.div_mod (- n) l ltac:(lia)) as Hd.
  pose proof (Z.mod_pos_bound (- n) l ltac:(lia)) as Hm.
  nia.
Qed.

Section Listing.

Variable instance_methods : bool.
Variable order : string -> string -> list Task -> option (list Task).

Local Abbreviation GET_list := (list_tasks instance_methods order).
Local Abbreviation enriched := (enrich instance_methods).


(** C3, at the failing input. For a task completed one day after it
    started, the duration in days rounded to two places is 1, while the
    get route sends the duration 0 when the instance methods are
    installed and [null] when they are not. *)
Theorem duration_of_one_day :
  get_task instance_methods 1 one_day_db = Json 200 (enriched one_day_task) /\
  duration (enriched one_day_task)
  = (if instance_methods then Some (0 # 100)%Q else None) /\
  (elapsed_days_2dp 0 86400000 == 1)%Q.
Proof.
  split; [reflexivity|]. split; [destruct instance_methods; reflexivity|].
  reflexivity.
Qed.

End Listing.

(** ** Concrete runs *)

Lemma wf_singleton t : wf_db (mkDb (<[id t := t]> ∅) (id t + 1)).
Proof.
  intros k t' H. cbn in H. rewrite lookup_insert in H.
  case_decide as Hk; [|rewrite lookup_empty in H; discriminate].
  injection H as <-. subst k. cbn. lia.
Qed.

Lemma wf_one_day_db : wf_db one_day_db.
Proof. exact (wf_singleton one_day_task). Qed.

Lemma wf_todo_db : wf_db todo_db.
Proof. exact (wf_singleton todo_task). Qed.


(** C7, as stated, fails under both readings of its title condition. A
    title of three spaces is not empty and has at most 100 characters as
    it is sent; a title of 100 letters and a trailing space is not empty
    and has 100 characters once trimmed. The create route answers 400 to
    both and writes nothing. *)
Lemma valid_payload_counterexample :
  (valid_payload_as_sent blank_body = true /\
   create_task sample_parseDate sample_parseFloat true blank_body 0 empty_db
   = (Fail 400 TitleEmpty, empty_db)) /\
  (valid_payload_trimmed padded_body = true /\
   create_task sample_parseDate sample_parseFloat true padded_body 0 empty_db
   = (Fail 400 TitleTooLong, empty_db)).
Proof. repeat split; vm_compute; reflexivity. Qed.

(** C8, as stated, fails: a title of 100 letters and a trailing space is
    within 100 characters once trimmed, and yet both routes answer 400; a
    payload without a title supplies no title, and the create route
    answers 400; an invalid status sent for a task that does not exist is
    answered with 404. *)
Lemma rejection_counterexample :
  (rejection_as_specified padded_body = false /\
   http_status
     (fst (create_task sample_parseDate sample_parseFloat true padded_body 0 empty_db))
   = 400 /\
   http_status
     (fst (update_task sample_parseDate sample_parseFloat true 1 padded_body 0 todo_db))
   = 400) /\
  (rejection_as_specified empty_body = false /\
   http_status
     (fst (create_task sample_parseDate sample_parseFloat true empty_body 0 empty_db))
   = 400) /\
  (rejection_as_specified (status_body "done") = true /\
   http_status
     (fst (update_task sample_parseDate sample_parseFloat true 1 (status_body "done") 0
             empty_db))
   = 404).
Proof. repeat split; vm_compute; reflexivity. Qed.

(** Leaving [approved] through the quick status route clears the completion time and keeps the start time. *)
Lemma status_write_follows_rules_witness :
  exists t',
    findByPk 1 (snd (patch_status true 1 (status_body "rejected_revision") 5 one_day_db))
    = Some t' /\
    status t' = "rejected_revision" /\
    started_at t' = Some 0 /\ completed_at t' = None.
Proof.
  destruct (status_write_follows_rules sample_parseDate sample_parseFloat true
              1 (status_body "rejected_revision") "rejected_revision" 5
              one_day_db one_day_task wf_one_day_db eq_refl eq_refl eq_refl)
    as [_ (t' & _ & Hl & Hs & Hr)].
  exists t'. split; [exact Hl|]. split; [exact Hs|].
  destruct Hr as (_ & _ & Hleave & _ & Hkeep & _). cbn in Hleave, Hkeep.
  split.
  - apply Hkeep; intros [H _]; discriminate H.
  - apply Hleave. split; [reflexivity|discriminate].
Defined.

(** Started at 10, sent back for revision at 20, in progress again at 30,
    while a second task is created and set to [todo]: the start time is
    still 10. *)
Lemma started_at_set_once_witness :
  exists t',
    findByPk 1
      (run sample_parseDate sample_parseFloat true
         [(PatchStatus 1 (status_body "in_progress"), 10);
          (Create spec_body, 15);
          (Update 1 (status_body "rejected_revision"), 20);
          (PatchStatus 2 (status_body "todo"), 25);
          (PatchStatus 1 (status_body "in_progress"), 30)] todo_db)
    = Some t' /\ started_at t' = Some 10.
Proof.
  apply (started_at_set_once sample_parseDate sample_parseFloat true 1
           (PatchStatus 1 (status_body "in_progress")) 10
           [(Create spec_body, 15);
            (Update 1 (status_body "rejected_revision"), 20);
            (PatchStatus 2 (status_body "todo"), 25);
            (PatchStatus 1 (status_body "in_progress"), 30)]
           todo_db todo_task).
  - exact wf_todo_db.
  - reflexivity.
  - reflexivity.
  - discriminate.
  - repeat split.
  - repeat constructor; cbn; intros H; try exact H;
      destruct H as (Hk & Hs & _); discriminate.
Defined.



(** A padded title and a priority: created with the trimmed title and status [todo]. *)
Lemma create_valid_payload_witness :
  exists t,
    fst (create_task sample_parseDate sample_parseFloat true spec_body 7 empty_db)
    = Json 201 (enrich_created true t) /\
    title t = "Write spec" /\ status t = "todo" /\ priority t = "high" /\
    started_at t = None /\ completed_at t = None.
Proof.
  destruct (create_valid_payload sample_parseDate sample_parseFloat true
              spec_body " Write spec " 7 empty_db)
    as (t & Hr & _ & Hti & Hst & Hpr & Hsa & Hca).
  - reflexivity.
  - discriminate.
  - vm_compute. lia.
  - reflexivity.
  - reflexivity.
  - exists t. exact (conj Hr (conj Hti (conj Hst (conj Hpr (conj Hsa Hca))))).
Defined.

(** The payload asks for the key 99 and for dates and hours: the created task has the key 1 and none of them. *)
Lemma create_ignores_unread_keys_witness :
  create_task sample_parseDate sample_parseFloat true spec_body 7 empty_db
  = create_task sample_parseDate sample_parseFloat true (strip_ignored spec_body) 7 empty_db /\
  id spec_task = 1 /\ actual_hours spec_task = None.
Proof.
  destruct (create_ignores_unread_keys sample_parseDate sample_parseFloat true
              spec_body 7 empty_db spec_task (mkDb (<[1 := spec_task]> ∅) 2)
              wf_empty_db eq_refl)
    as (Heq & Hid & _ & _ & _ & _ & Hah).
  split; [exact Heq|]. split; [exact Hid|exact Hah].
Defined.

(** The over-long title is turned down by both routes and the table is unchanged. *)
Lemma validation_rejects_exactly_witness :
  http_status
    (fst (create_task sample_parseDate sample_parseFloat true padded_body 0 todo_db))
  = 400 /\
  snd (update_task sample_parseDate sample_parseFloat true 1 padded_body 0 todo_db)
  = todo_db.
Proof.
  destruct (validation_rejects_exactly sample_parseDate sample_parseFloat true
              1 padded_body 0 todo_db)
    as ((Hc & _ & _) & Hu & _).
  destruct (Hu todo_task eq_refl) as (_ & Hsame & _).
  split; [apply Hc; reflexivity|apply Hsame; reflexivity].
Defined.

(** Starting the task leaves its title, priority and assignee alone. *)
Lemma patch_status_frame_witness :
  exists t',
    findByPk 1 (snd (patch_status true 1 (status_body "in_progress") 10 todo_db))
    = Some t' /\
    title t' = "Write spec" /\ priority t' = "high" /\ assignee t' = Some "alice".
Proof.
  destruct (patch_status_frame true 1 (status_body "in_progress") 10 todo_db
              todo_task wf_todo_db eq_refl eq_refl)
    as [(t' & Hl & _ & Hti & _ & Hpr & Has & _) _].
  exists t'. exact (conj Hl (conj Hti (conj Hpr Has))).
Defined.

(** * Further properties *)

(** ** Trimming *)

Lemma trimStart_length s : (String.length (Js.trimStart s) <= String.length s)%nat.
Proof.
  induction s as [|c r IH]; cbn; [lia|]. destruct (Js.is_space c); cbn; lia.
Qed.

Lemma trimEnd_length s : (String.length (Js.trimEnd s) <= String.length s)%nat.
Proof.
  induction s as [|c r IH]; cbn; [lia|].
  destruct (Js.trimEnd r) as [|d r']; [destruct (Js.is_space c)|]; cbn in *; lia.
Qed.

Lemma trim_length s : Js.length (Js.trim s) <= Js.length s.
Proof.
  unfold Js.length, Js.trim.
  pose proof (trimEnd_length (Js.trimStart s)). pose proof (trimStart_length s). lia.
Qed.

Lemma trimEnd_cons c r :
  Js.trimEnd (String c r)
  = match Js.trimEnd r with
    | EmptyString => if Js.is_space c then EmptyString else String c EmptyString
    | String d r' => String c (String d r')
    end.
Proof. reflexivity. Qed.

Lemma trimEnd_idem s : Js.trimEnd (Js.trimEnd s) = Js.trimEnd s.
Proof.
  induction s as [|c r IH]; [reflexivity|]. rewrite (trimEnd_cons c r).
  destruct (Js.trimEnd r) as [|d r'] eqn:Hr.
  - destruct (Js.is_space c) eqn:Hc; [reflexivity|]. cbn. rewrite Hc. reflexivity.
  - rewrite trimEnd_cons, IH. reflexivity.
Qed.

Lemma trimStart_no_leading_space s : no_leading_space (Js.trimStart s).
Proof.
  induction s as [|c r IH]; cbn; [exact I|].
  destruct (Js.is_space c) eqn:Hc; [exact IH|exact Hc].
Qed.

Lemma trimEnd_no_leading_space s :
  no_leading_space s -> no_leading_space (Js.trimEnd s).
Proof.
  destruct s as [|c r]; cbn; [auto|]. intros Hc.
  destruct (Js.trimEnd r); [rewrite Hc|]; exact Hc.
Qed.

Lemma trimStart_fixed s : no_leading_space s -> Js.trimStart s = s.
Proof. destruct s as [|c r]; cbn; [auto|]. intros ->. reflexivity. Qed.

Lemma trim_idem s : Js.trim (Js.trim s) = Js.trim s.
Proof.
  unfold Js.trim.
  rewrite (trimStart_fixed (Js.trimEnd (Js.trimStart s))).
  - apply trimEnd_idem.
  - apply trimEnd_no_leading_space, trimStart_no_leading_space.
Qed.

(** A title that passes the checks is stored trimmed, not empty and
    within 100 characters. *)
Lemma check_title_trimmed ti :
  check_title ti = None ->
  Js.trim ti <> "" /\ Js.length (Js.trim ti) <= 100 /\
  Js.trim (Js.trim ti) = Js.trim ti.
Proof.
  intros Hc. apply check_title_None in Hc. apply orb_false_iff in Hc as [Hb Hl].
  unfold blank in Hb. apply Z.eqb_neq in Hb. apply Z.ltb_ge in Hl.
  split; [intros He; rewrite He in Hb; apply Hb; reflexivity|].
  split; [pose proof (trim_length ti); lia|apply trim_idem].
Qed.

(** ** What a write stores *)

Lemma set_values_fields u t :
  let t' := set_values u t in
  title t' = default (title t) (u_title u) /\
  description t' = default (description t) (u_description u) /\
  priority t' = default (priority t) (u_priority u) /\
  assignee t' = default (assignee t) (u_assignee u) /\
  due_date t' = from_option stored (due_date t) (u_due_date u) /\
  tags t' = default (tags t) (u_tags u) /\
  estimated_hours t' = from_option stored (estimated_hours t) (u_estimated_hours u) /\
  actual_hours t' = from_option stored (actual_hours t) (u_actual_hours u) /\
  project_id t' = default (project_id t) (u_project_id u) /\
  project_name t' = default (project_name t) (u_project_name u).
Proof.
  destruct u as [a b c d e f g h i j k]; unfold set_values; cbn.
  destruct a, b, c, d, e, f, g, h, i, j, k; cbn; repeat split; reflexivity.
Qed.

(** The row that [instance.update] leaves, column by column. *)
Lemma Instance_update_fields u now t db :
  let t' := fst (Instance_update u now t db) in
  id t' = id t /\ created_at t' = created_at t /\
  updated_at t' = (if update_changes u t then now else updated_at t) /\
  title t' = default (title t) (u_title u) /\
  description t' = default (description t) (u_description u) /\
  priority t' = default (priority t) (u_priority u) /\
  status t' = default (status t) (u_status u) /\
  assignee t' = default (assignee t) (u_assignee u) /\
  due_date t' = from_option stored (due_date t) (u_due_date u) /\
  tags t' = default (tags t) (u_tags u) /\
  estimated_hours t' = from_option stored (estimated_hours t) (u_estimated_hours u) /\
  actual_hours t' = from_option stored (actual_hours t) (u_actual_hours u) /\
  project_id t' = default (project_id t) (u_project_id u) /\
  project_name t' = default (project_name t) (u_project_name u).
Proof.
  cbn zeta.
  destruct (Instance_update_columns u now t db)
    as (F1 & F2 & F3 & F4 & F5 & F6 & F7 & F8 & F9 & F10 & F11 & F12 & F13).
  cbn zeta in *.
  destruct (set_values_frame u t) as (G1 & _ & _ & G4 & _ & G6).
  destruct (set_values_fields u t) as (H1 & H2 & H3 & H4 & H5 & H6 & H7 & H8 & H9 & H10).
  cbn zeta in *.
  rewrite F1, F2, F3, F4, F5, F6, F7, F8, F9, F10, F11, F12, F13.
  rewrite G1, G4, G6, H1, H2, H3, H4, H5, H6, H7, H8, H9, H10.
  assert (Hu : updated_at (fst (Instance_update u now t db))
               = (if update_changes u t then now else updated_at t)).
  { destruct (Instance_update_cases u now t db) as [(-> & ->)|(-> & _ & ->)];
      reflexivity. }
  rewrite Hu. repeat split; reflexivity.
Qed.

Lemma valid_status_only s :
  Js.includes validStatuses s = true -> valid_update (status_only s).
Proof.
  intros Hs. repeat split; cbn; try discriminate. intros s' [= <-]. exact Hs.
Qed.

Lemma delete_task_lookup key db k t' :
  findByPk k (snd (delete_task key db)) = Some t' -> findByPk k db = Some t'.
Proof.
  unfold delete_task. destruct (findByPk key db) as [t|]; cbn; [|auto].
  unfold findByPk; cbn. rewrite lookup_delete. case_decide; [discriminate|auto].
Qed.

Lemma delete_task_wf key db : wf_db db -> wf_db (snd (delete_task key db)).
Proof.
  intros Hwf k t H. apply delete_task_lookup in H.
  destruct (Hwf k t H) as [Hid Hlt]. split; [exact Hid|].
  unfold delete_task. destruct (findByPk key db); exact Hlt.
Qed.

(** ** Rows under [instance.update] *)

(** A write that leaves the status as it is leaves the two derived
    timestamps as they are. *)
Lemma Instance_update_same_status u now t db :
  default (status t) (u_status u) = status t ->
  started_at (fst (Instance_update u now t db)) = started_at t /\
  completed_at (fst (Instance_update u now t db)) = completed_at t.
Proof.
  intros Hsame.
  destruct (Instance_update_timestamps u now t db) as [Hst Hr].
  rewrite Hst, Hsame in Hr.
  destruct Hr as (_ & _ & _ & _ & Hks & Hkc). cbn [fst snd] in *.
  split.
  - apply Hks; [intros (H1 & H2 & _)|intros (H1 & H2)]; congruence.
  - apply Hkc; intros (H1 & H2); congruence.
Qed.

(** The only changes of the derived timestamps: the start time is set to
    the time of the write on entering [in_progress] without one and
    cleared on going from [in_progress] to [todo]; the completion time is
    set on entering [approved] and cleared on leaving it. *)
Lemma Instance_update_timestamp_cases u now t db :
  let t' := fst (Instance_update u now t db) in
  (started_at t' = started_at t \/
   (started_at t = None /\ started_at t' = Some now /\
    status t <> "in_progress" /\ status t' = "in_progress") \/
   (started_at t' = None /\ status t = "in_progress" /\ status t' = "todo")) /\
  (completed_at t' = completed_at t \/
   (completed_at t' = Some now /\ status t <> "approved" /\ status t' = "approved") \/
   (completed_at t' = None /\ status t = "approved" /\ status t' <> "approved")).
Proof.
  cbn zeta.
  destruct (Instance_update_timestamps u now t db) as [_ Hr].
  set (t' := fst (Instance_update u now t db)) in *.
  destruct Hr as (H1 & H2 & H3 & H4 & H5 & H6). cbn [fst snd] in *.
  split.
  - destruct (decide (status t' = "in_progress" /\ status t <> "in_progress" /\
                      started_at t = None)) as [e|e].
    { right. left. rewrite (H1 e). tauto. }
    destruct (decide (status t = "in_progress" /\ status t' = "todo")) as [b|b].
    { right. right. rewrite (H4 b). tauto. }
    left. apply H5; assumption.
  - destruct (decide (status t' = "approved" /\ status t <> "approved")) as [e|e].
    { right. left. rewrite (H2 e). tauto. }
    destruct (decide (status t = "approved" /\ status t' <> "approved")) as [b|b].
    { right. right. rewrite (H3 b). tauto. }
    left. apply H6; assumption.
Qed.

Lemma row_valid_update u now t db :
  row_valid t -> valid_update u -> row_valid (fst (Instance_update u now t db)).
Proof.
  intros (V1 & V2 & V3 & V4 & V5) (U1 & U2 & U3).
  destruct (Instance_update_fields u now t db)
    as (_ & _ & _ & F4 & _ & F6 & F7 & _).
  unfold row_valid. rewrite F4, F6, F7.
  assert (Hp : Js.includes validPriorities (default (priority t) (u_priority u)) = true).
  { destruct (u_priority u) as [p|]; [exact (U2 p eq_refl)|exact V4]. }
  assert (Hs : Js.includes validStatuses (default (status t) (u_status u)) = true).
  { destruct (u_status u) as [s|]; [exact (U3 s eq_refl)|exact V5]. }
  destruct (u_title u) as [x|]; cbn [default from_option id].
  - destruct (U1 x eq_refl) as (ti & -> & Hc).
    destruct (check_title_trimmed ti Hc) as (T1 & T2 & T3). auto.
  - auto.
Qed.

Lemma completed_implies_approved_update u now t db :
  (completed_at t <> None -> status t = "approved") ->
  completed_at (fst (Instance_update u now t db)) <> None ->
  status (fst (Instance_update u now t db)) = "approved".
Proof.
  intros Hinv.
  destruct (Instance_update_timestamp_cases u now t db) as [_ Hc]. cbn zeta in Hc.
  destruct Hc as [Hc|[(_ & _ & Ha)|(Hn & _)]]; [|auto|congruence].
  rewrite Hc. intros Hne.
  destruct (decide (status (fst (Instance_update u now t db)) = "approved")) as [|Hna];
    [assumption|].
  exfalso.
  destruct (Instance_update_timestamps u now t db) as [_ Hr].
  destruct Hr as (_ & _ & Hout & _). cbn [fst snd] in Hout.
  apply Hne. rewrite <- Hc. apply Hout. split; [apply Hinv, Hne|exact Hna].
Qed.

Lemma times_ok_mono c c' t : times_ok c t -> c <= c' -> times_ok c' t.
Proof.
  intros (H1 & H2 & H3 & H4) Hc. repeat split; auto.
  - intros a Ha. specialize (H1 a Ha). lia.
  - intros b Hb. specialize (H2 b Hb). lia.
Qed.

Lemma times_ok_update c u now t db :
  times_ok c t -> c <= now -> times_ok now (fst (Instance_update u now t db)).
Proof.
  intros Hok Hc. pose proof Hok as (H1 & H2 & H3 & H4).
  pose proof (completed_implies_approved_update u now t db H3) as Happ.
  destruct (Instance_update_timestamp_cases u now t db) as [Hs Hcm]. cbn zeta in *.
  set (t' := fst (Instance_update u now t db)) in *.
  assert (Hs' : forall a, started_at t' = Some a -> a <= now).
  { intros a Ha. destruct Hs as [Hs|[(_ & Hs & _)|(Hs & _)]];
      [|assert (a = now) by congruence; lia|congruence].
    rewrite Hs in Ha. specialize (H1 a Ha). lia. }
  assert (Hc' : forall b, completed_at t' = Some b -> b <= now).
  { intros b Hb. destruct Hcm as [Hcm|[(Hcm & _)|(Hcm & _)]];
      [|assert (b = now) by congruence; lia|congruence].
    rewrite Hcm in Hb. specialize (H2 b Hb). lia. }
  repeat split; auto.
  intros a b Ha Hb.
  destruct Hcm as [Hcm|[(Hcm & _)|(Hcm & _)]]; [| |congruence].
  - destruct Hs as [Hs|[(_ & _ & _ & Hin)|(Hs & _)]]; [| |congruence].
    + rewrite Hs in Ha. rewrite Hcm in Hb. eauto.
    + assert (status t' = "approved") by (apply Happ; congruence). congruence.
  - assert (b = now) by congruence. subst b. auto.
Qed.

(** A duration is not negative when the completion is not before the
    start. *)
Lemma getDuration_nonneg t q :
  (forall a b, started_at t = Some a -> completed_at t = Some b -> a <= b) ->
  getDuration t = Some q -> (0 <= q)%Q.
Proof.
  intros Hle. unfold getDuration.
  destruct (started_at t) as [a|]; [|discriminate].
  destruct (completed_at t) as [b|]; [|discriminate].
  specialize (Hle a b eq_refl eq_refl). intros [= <-].
  assert (0 <= Js.round_div (b - a) (1000 * 60 * 60 * 24 * 100)).
  { unfold Js.round_div. apply Z.div_pos; lia. }
  unfold Qle, Qdiv, Qmult, Qinv, inject_Z. cbn. lia.
Qed.

(** ** The routes, one request at a time *)

Section MoreRouteProperties.

Variable parseDate : string -> option Z.
Variable parseFloat : string -> option Q.
Variable instance_methods : bool.

Local Abbreviation POST := (create_task parseDate parseFloat instance_methods).
Local Abbreviation PUT := (update_task parseDate parseFloat instance_methods).
Local Abbreviation PATCH := (patch_status instance_methods).
Local Abbreviation GET := (get_task instance_methods).
Local Abbreviation updateData_of := (build_updateData parseDate parseFloat).
Local Abbreviation enriched := (enrich instance_methods).
Local Abbreviation created_json := (enrich_created instance_methods).
Local Abbreviation do_step := (step parseDate parseFloat instance_methods).
Local Abbreviation do_run := (run parseDate parseFloat instance_methods).
Local Abbreviation do_exec := (exec parseDate parseFloat instance_methods).
Local Abbreviation do_exec_all := (exec_all parseDate parseFloat instance_methods).

Lemma valid_build_updateData body :
  validate_update body = None -> valid_update (updateData_of body).
Proof.
  intros Hv. unfold validate_update in Hv.
  destruct (from_option check_title None (b_title body)) eqn:Ht; [discriminate|].
  destruct (from_option (Js.includes validPriorities) true (b_priority body)) eqn:Hp;
    cbn in Hv; [|discriminate].
  destruct (from_option (Js.includes validStatuses) true (b_status body)) eqn:Hs;
    cbn in Hv; [|discriminate].
  unfold valid_update; cbn. repeat split.
  - intros x Hx. destruct (b_title body) as [ti|]; cbn in *; [|discriminate].
    injection Hx as <-. eauto.
  - intros p Hp'. rewrite Hp' in Hp. exact Hp.
  - intros s Hs'. rewrite Hs' in Hs. exact Hs.
Qed.

(** A row found after a write was there before and is untouched, or has
    just been created under the next key, or is the update of the row
    that was under its key. *)
Lemma step_row_cases r now db k t' :
  wf_db db ->
  findByPk k (do_step r now db) = Some t' ->
  findByPk k db = Some t' \/
  (findByPk k db = None /\ k = next_id db /\ id t' = k /\ row_valid t' /\
   started_at t' = None /\ completed_at t' = None /\ created_at t' = now) \/
  (exists t u, findByPk k db = Some t /\ valid_update u /\
               u_status u = requested_status r /\
               t' = fst (Instance_update u now t db)).
Proof.
  intros Hwf.
  assert (Hupd : forall u k0 t0,
             findByPk k0 db = Some t0 -> valid_update u ->
             u_status u = requested_status r ->
             findByPk k (snd (Instance_update u now t0 db)) = Some t' ->
             findByPk k db = Some t' \/
             (findByPk k db = None /\ k = next_id db /\ id t' = k /\ row_valid t' /\
              started_at t' = None /\ completed_at t' = None /\ created_at t' = now) \/
             (exists t u, findByPk k db = Some t /\ valid_update u /\
                          u_status u = requested_status r /\
                          t' = fst (Instance_update u now t db))).
  { intros u k0 t0 Hk0 Hu Hst Hl. destruct (Hwf k0 t0 Hk0) as [Hid _].
    destruct (decide (k = k0)) as [->|Hne].
    - right. right. exists t0, u. rewrite <- Hid in Hl.
      rewrite (Instance_update_lookup u now t0 db) in Hl by congruence.
      injection Hl as <-. auto.
    - left. rewrite Instance_update_other in Hl by congruence. exact Hl. }
  destruct r as [body|k0 body|k0 body]; cbn.
  - unfold create_task.
    destruct (b_title body) as [ti|]; [|auto].
    destruct (check_title ti) eqn:Hc; [auto|].
    destruct (Js.includes validPriorities _) eqn:Hp; cbn [negb]; [|auto].
    destruct (Js.includes validStatuses _) eqn:Hs; cbn [negb]; [|auto].
    unfold findByPk, Task_create, beforeCreate; cbn.
    rewrite lookup_insert. case_decide as Hk.
    + intros [= <-]. right. left. subst k.
      destruct (check_title_trimmed ti Hc) as (T1 & T2 & T3).
      split.
      { destruct (tasks db !! next_id db) as [x|] eqn:Hx; [|reflexivity].
        apply Hwf in Hx. lia. }
      cbn. unfold row_valid. cbn. auto 10.
    + auto.
  - unfold update_task.
    destruct (findByPk k0 db) as [t0|] eqn:Hk0; [|auto].
    destruct (validate_update body) eqn:Hv; [auto|]. cbn [snd].
    apply (Hupd _ k0 t0 Hk0); [apply valid_build_updateData, Hv|reflexivity].
  - unfold patch_status.
    destruct (b_status body) as [s|] eqn:Hs; [|auto].
    destruct (negb (Js.truthy s)); [auto|].
    destruct (Js.includes validStatuses s) eqn:Hv; cbn [negb]; [|auto].
    destruct (findByPk k0 db) as [t0|] eqn:Hk0; [|auto]. cbn [snd].
    cbn in Hupd. rewrite Hs in Hupd.
    apply (Hupd _ k0 t0 Hk0); [apply valid_status_only, Hv|reflexivity].
Qed.

Lemma step_next_id r now db : next_id db <= next_id (do_step r now db).
Proof.
  destruct r as [body|k0 body|k0 body]; cbn.
  - unfold create_task.
    destruct (b_title body) as [ti|]; [|cbn; lia].
    destruct (check_title ti); [cbn; lia|].
    destruct (negb _); [cbn; lia|]. destruct (negb _); cbn; lia.
  - unfold update_task.
    destruct (findByPk k0 db); [|cbn; lia].
    destruct (validate_update body); cbn [snd]; rewrite ?Instance_update_next_id; lia.
  - unfold patch_status.
    destruct (b_status body) as [s|]; [|cbn; lia].
    destruct (negb _); [cbn; lia|]. destruct (negb _); [cbn; lia|].
    destruct (findByPk k0 db); cbn [snd]; rewrite ?Instance_update_next_id; lia.
Qed.

Lemma exec_wf o now db : wf_db db -> wf_db (do_exec o now db).
Proof.
  destruct o as [r|key]; cbn; [apply step_wf|apply delete_task_wf].
Qed.

Lemma exec_all_wf os db : wf_db db -> wf_db (do_exec_all os db).
Proof.
  revert db. induction os as [|[o now] os IH]; intros db Hwf; cbn; [exact Hwf|].
  apply IH, exec_wf, Hwf.
Qed.

(** The same three cases with deletions: a deletion creates and changes
    no row. *)
Lemma exec_row_cases o now db k t' :
  wf_db db ->
  findByPk k (do_exec o now db) = Some t' ->
  findByPk k db = Some t' \/
  (findByPk k db = None /\ k = next_id db /\ id t' = k /\ row_valid t' /\
   started_at t' = None /\ completed_at t' = None /\ created_at t' = now) \/
  (exists t u, findByPk k db = Some t /\ valid_update u /\
               t' = fst (Instance_update u now t db)).
Proof.
  intros Hwf. destruct o as [r|key]; cbn.
  - intros H. destruct (step_row_cases r now db k t' Hwf H)
      as [H1|[H2|(t & u & H3 & H4 & _ & H5)]]; eauto 10.
  - intros H. left. eapply delete_task_lookup, H.
Qed.

(** X1. Deleting an id that is not in the table is answered with 404 and
    changes nothing; deleting a task is answered with 200, removes its row
    and no other, and keeps the counter of the keys; after a deletion the
    task is gone for the get route and for a second deletion. *)
Theorem delete_task_effect key db :
  wf_db db ->
  (findByPk key db = None -> delete_task key db = (Fail 404 TaskNotFound, db)) /\
  (forall t, findByPk key db = Some t ->
     http_status (fst (delete_task key db)) = 200 /\
     (forall k, k <> key -> findByPk k (snd (delete_task key db)) = findByPk k db) /\
     next_id (snd (delete_task key db)) = next_id db) /\
  GET key (snd (delete_task key db)) = Fail 404 TaskNotFound /\
  http_status (fst (delete_task key (snd (delete_task key db)))) = 404.
Proof.
  intros Hwf.
  assert (Hgone : findByPk key (snd (delete_task key db)) = None).
  { unfold delete_task. destruct (findByPk key db) as [t|] eqn:Ht; cbn; [|exact Ht].
    destruct (Hwf key t Ht) as [Hid _]. unfold findByPk, Instance_destroy in *; cbn.
    rewrite Hid. apply lookup_delete_eq. }
  split; [intros Hn; unfold delete_task; rewrite Hn; reflexivity|].
  split.
  - intros t Ht. unfold delete_task. rewrite Ht. cbn.
    destruct (Hwf key t Ht) as [Hid _].
    split; [reflexivity|]. split; [|reflexivity].
    intros k Hk. unfold findByPk; cbn. apply lookup_delete_ne. congruence.
  - split.
    + unfold get_task. rewrite Hgone. reflexivity.
    + unfold delete_task at 1. rewrite Hgone. reflexivity.
Qed.

(** X2. A create request answered with 201 adds one row: the get route
    returns the created task under its id, every other id answers as
    before, the counter of the keys moves by one, and the two system dates
    are the time of the request. *)
Theorem create_adds_one_row body now db t db' :
  wf_db db ->
  POST body now db = (Json 201 (created_json t), db') ->
  GET (id t) db' = Json 200 (enriched t) /\
  (forall k, k <> id t -> GET k db' = GET k db) /\
  next_id db' = next_id db + 1 /\
  created_at t = now /\ updated_at t = now.
Proof.
  intros Hwf Hc.
  destruct (create_task_cases parseDate parseFloat instance_methods body now db)
    as [(_ & H400 & _)|(_ & t1 & Heq & Hid & _)].
  { rewrite Hc in H400. discriminate. }
  assert (Hnow : created_at t1 = now /\ updated_at t1 = now).
  { revert Heq. unfold create_task.
    destruct (b_title body); [|discriminate]. destruct (check_title _); [discriminate|].
    destruct (negb _); [discriminate|]. destruct (negb _); [discriminate|].
    unfold Task_create, beforeCreate. cbn. intros Heq. injection Heq as <- _. auto. }
  rewrite Heq in Hc. injection Hc as Hrow Hdb. subst t1 db'.
  unfold get_task, findByPk; cbn. rewrite Hid.
  split; [rewrite lookup_insert_eq; reflexivity|].
  split; [|tauto].
  intros k Hk. rewrite lookup_insert_ne by congruence. reflexivity.
Qed.

(** X3. What the update route answers with 200 is what the get route
    returns afterwards; the row keeps its id and its creation date, the
    other rows and the counter of the keys are untouched, and the keys
    [id], [started_at] and [completed_at] of the payload play no part.
    The update date is the time of the request when the payload changes
    a column (or holds a date or a number that does not parse); when it
    changes none, nothing is written: the row, its update date and the
    table are as they were. *)
Theorem update_then_get key body now db payload db' :
  wf_db db ->
  PUT key body now db = (Json 200 payload, db') ->
  GET key db' = Json 200 payload /\
  (exists t,
     findByPk key db = Some t /\ created_at (row payload) = created_at t /\
     (update_changes (updateData_of body) t = true -> updated_at (row payload) = now) /\
     (update_changes (updateData_of body) t = false -> row payload = t /\ db' = db)) /\
  id (row payload) = key /\
  (forall k, k <> key -> findByPk k db' = findByPk k db) /\
  next_id db' = next_id db /\
  PUT key body now db = PUT key (strip_unread_by_update body) now db.
Proof.
  intros Hwf Hput.
  assert (Hcase : exists t, findByPk key db = Some t /\ validate_update body = None).
  { revert Hput. unfold update_task.
    destruct (findByPk key db) as [t|]; [|discriminate].
    destruct (validate_update body); [discriminate|]. eauto. }
  destruct Hcase as (t & Ht & Hv).
  destruct (Hwf key t Ht) as [Hid _].
  assert (Ht' : findByPk (id t) db = Some t) by congruence.
  rewrite (update_task_accepted parseDate parseFloat instance_methods key body now db t
             Ht Hid Hv) in Hput.
  destruct (Instance_update_fields (updateData_of body) now t db) as (F1 & F2 & F3 & _).
  pose proof (Instance_update_lookup (updateData_of body) now t db Ht') as Hl.
  assert (Ho : forall k, k <> key ->
                 findByPk k (snd (Instance_update (updateData_of body) now t db))
                 = findByPk k db).
  { intros k Hk. apply Instance_update_other. congruence. }
  pose proof (Instance_update_next_id (updateData_of body) now t db) as Hn.
  assert (Hsame : update_changes (updateData_of body) t = false ->
                  Instance_update (updateData_of body) now t db = (t, db)).
  { intros Hc.
    destruct (Instance_update_cases (updateData_of body) now t db)
      as [(Hc' & _)|(_ & _ & Heq)]; [congruence|exact Heq]. }
  remember (Instance_update (updateData_of body) now t db) as r eqn:Hr.
  injection Hput as <- <-. cbn [row enrich].
  split; [unfold get_task; rewrite <- Hid, Hl; reflexivity|].
  split.
  { exists t. split; [exact Ht|]. split; [exact F2|]. split.
    - intros Hc. rewrite Hc in F3. exact F3.
    - intros Hc. rewrite (Hsame Hc). split; reflexivity. }
  split; [congruence|].
  split; [exact Ho|]. split; [exact Hn|reflexivity].
Qed.

(** X4. The quick status route validates before it looks the task up: it
    answers 400 when the status is missing, empty or not an allowed value,
    whether the task exists or not, then 404 when there is no such task,
    and 200 otherwise.  Only a 200 writes, and the fields it sends are those
    of the stored row, with the status that was asked for. *)
Theorem patch_status_answer key body now db :
  wf_db db ->
  http_status (fst (PATCH key body now db))
  = (if negb (from_option (Js.includes validStatuses) false (b_status body)) then 400
     else if Js.is_null (findByPk key db) then 404 else 200) /\
  (http_status (fst (PATCH key body now db)) <> 200 -> snd (PATCH key body now db) = db) /\
  (forall p, fst (PATCH key body now db) = Json 200 p ->
     exists t', findByPk key (snd (PATCH key body now db)) = Some t' /\
                s_id p = key /\ b_status body = Some (s_status p) /\
                s_status p = status t' /\ s_started_at p = started_at t' /\
                s_completed_at p = completed_at t').
Proof.
  intros Hwf.
  split; [|split; [apply patch_status_rejected|]].
  - unfold patch_status. destruct (b_status body) as [s|]; cbn [from_option]; [|reflexivity].
    destruct (Js.includes validStatuses s) eqn:Hv; cbn [negb].
    + rewrite (valid_status_truthy s Hv). cbn [negb].
      destruct (findByPk key db); reflexivity.
    + destruct (negb (Js.truthy s)); reflexivity.
  - intros p Hp.
    assert (Hcase : exists s t, b_status body = Some s /\
                      Js.includes validStatuses s = true /\ findByPk key db = Some t).
    { revert Hp. unfold patch_status.
      destruct (b_status body) as [s|]; [|discriminate].
      destruct (negb (Js.truthy s)); [discriminate|].
      destruct (Js.includes validStatuses s) eqn:Hv; [|discriminate]. cbn [negb].
      destruct (findByPk key db) as [t|]; [eauto|discriminate]. }
    destruct Hcase as (s & t & Hs & Hv & Ht).
    destruct (Hwf key t Ht) as [Hid _].
    rewrite (patch_status_accepted instance_methods key body s now db t Ht Hid Hs Hv)
      in Hp |- *.
    cbn [fst snd] in *. injection Hp as <-. cbn.
    exists (fst (Instance_update (status_only s) now t db)).
    destruct (Instance_update_fields (status_only s) now t db)
      as (F1 & _ & _ & _ & _ & _ & F7 & _).
    split; [rewrite <- Hid; apply (Instance_update_lookup (status_only s) now t db);
            congruence|].
    split; [cbn in F1; congruence|]. split; [|auto].
    rewrite Hs. f_equal. symmetry. exact F7.
Qed.

(** X5. The update route looks the task up before it validates: for an id
    that is not in the table it answers 404 whatever the payload, and for
    an existing task 400 or 200 as the payload fails or passes the checks;
    only a 200 writes. *)
Theorem update_task_answer key body now db :
  http_status (fst (PUT key body now db))
  = (if Js.is_null (findByPk key db) then 404
     else if update_rejection body then 400 else 200) /\
  (http_status (fst (PUT key body now db)) <> 200 -> snd (PUT key body now db) = db).
Proof.
  split; [|apply update_task_rejected].
  unfold update_task, update_rejection, validate_update.
  destruct (findByPk key db) as [t|]; [|reflexivity]. cbn [Js.is_null].
  destruct (b_title body) as [ti|]; cbn [from_option].
  - pose proof (check_title_None ti) as Hc.
    destruct (check_title ti) as [e|].
    + destruct (blank ti || Z.ltb 100 (Js.length ti)); [reflexivity|].
      destruct Hc as [_ Hc]. specialize (Hc eq_refl). discriminate.
    + destruct Hc as [Hc _]. rewrite (Hc eq_refl). cbn [orb].
      destruct (from_option (Js.includes validPriorities) true (b_priority body));
        cbn [negb orb]; [|reflexivity].
      destruct (from_option (Js.includes validStatuses) true (b_status body));
        reflexivity.
  - cbn [orb].
    destruct (from_option (Js.includes validPriorities) true (b_priority body));
      cbn [negb orb]; [|reflexivity].
    destruct (from_option (Js.includes validStatuses) true (b_status body));
      reflexivity.
Qed.

(** An accepted write through either route is one [instance.update] of
    the row, with an update that carries the requested status. *)
Lemma accepted_write_effect key s r now db t :
  wf_db db ->
  findByPk key db = Some t ->
  accepted_status_write key s r ->
  exists u, u_status u = Some s /\
            findByPk key (do_step r now db) = Some (fst (Instance_update u now t db)).
Proof.
  intros Hwf Ht Hacc. destruct (Hwf key t Ht) as [Hid _].
  destruct r as [body|k body|k body]; cbn in Hacc; [contradiction| |].
  - destruct Hacc as (-> & Hs & Hv). exists (updateData_of body). split; [exact Hs|].
    cbn. rewrite (update_task_accepted parseDate parseFloat instance_methods
                    key body now db t Ht Hid Hv). cbn [snd].
    rewrite <- Hid. apply (Instance_update_lookup (updateData_of body) now t db).
    congruence.
  - destruct Hacc as (-> & Hs & Hv). exists (status_only s). split; [reflexivity|].
    cbn. rewrite (patch_status_accepted instance_methods key body s now db t Ht Hid Hs Hv).
    cbn [snd]. rewrite <- Hid. apply (Instance_update_lookup (status_only s) now t db).
    congruence.
Qed.

(** X6. What the update route stores, column by column, when it answers
    200: the title trimmed, the priority and the status as sent, in each
    nullable text column the text trimmed, or [null] for an empty string,
    and in the date column and the two number columns the value parsed,
    or [null] for an empty string and for a string that does not parse;
    a column whose key is absent keeps its value, and without a status
    key the two derived timestamps keep theirs. *)
Theorem update_stores key body now db t :
  wf_db db ->
  findByPk key db = Some t ->
  http_status (fst (PUT key body now db)) = 200 ->
  exists t',
    findByPk key (snd (PUT key body now db)) = Some t' /\
    title t' = from_option Js.trim (title t) (b_title body) /\
    priority t' = default (priority t) (b_priority body) /\
    status t' = default (status t) (b_status body) /\
    description t' = sent_column Js.trim (description t) (b_description body) /\
    assignee t' = sent_column Js.trim (assignee t) (b_assignee body) /\
    tags t' = sent_column Js.trim (tags t) (b_tags body) /\
    project_id t' = sent_column Js.trim (project_id t) (b_project_id body) /\
    project_name t' = sent_column Js.trim (project_name t) (b_project_name body) /\
    due_date t' = sent_parsed parseDate (due_date t) (b_due_date body) /\
    estimated_hours t'
    = sent_parsed parseFloat (estimated_hours t) (b_estimated_hours body) /\
    actual_hours t' = sent_parsed parseFloat (actual_hours t) (b_actual_hours body) /\
    (b_status body = None ->
     started_at t' = started_at t /\ completed_at t' = completed_at t).
Proof.
  intros Hwf Ht H200. destruct (Hwf key t Ht) as [Hid _].
  assert (Hv : validate_update body = None).
  { revert H200. unfold update_task. rewrite Ht.
    destruct (validate_update body); [discriminate|reflexivity]. }
  rewrite (update_task_accepted parseDate parseFloat instance_methods key body now db t
             Ht Hid Hv).
  cbn [snd].
  exists (fst (Instance_update (updateData_of body) now t db)).
  destruct (Instance_update_fields (updateData_of body) now t db)
    as (_ & _ & _ & F4 & F5 & F6 & F7 & F8 & F9 & F10 & F11 & F12 & F13 & F14).
  assert (Hts : b_status body = None ->
                started_at (fst (Instance_update (updateData_of body) now t db))
                = started_at t /\
                completed_at (fst (Instance_update (updateData_of body) now t db))
                = completed_at t).
  { intros Hn. apply Instance_update_same_status. cbn. rewrite Hn. reflexivity. }
  assert (Hparsed : forall (A : Type) (parse : string -> option A) old sent,
             from_option stored old (sent_value parse <$> sent)
             = sent_parsed parse old sent).
  { intros A parse old [x|]; [|reflexivity]. cbn. unfold sent_value.
    destruct (Js.truthy x); [|reflexivity]. destruct (parse x); reflexivity. }
  split; [rewrite <- Hid; apply (Instance_update_lookup (updateData_of body) now t db);
          congruence|].
  rewrite F4, F5, F6, F7, F8, F9, F10, F11, F12, F13, F14.
  cbn [build_updateData u_title u_description u_priority u_status u_assignee
       u_due_date u_tags u_estimated_hours u_actual_hours u_project_id
       u_project_name].
  rewrite !Hparsed.
  repeat (split; [cbn; try (match goal with |- context [?f <$> ?o] => destruct o end);
                  reflexivity|]).
  exact Hts.
Qed.

(** X7. An accepted write, through either route, that asks for the
    status the task already has leaves the status and both derived
    timestamps as they are. *)
Theorem same_status_write key r now db t :
  wf_db db ->
  findByPk key db = Some t ->
  accepted_status_write key (status t) r ->
  exists t',
    findByPk key (do_step r now db) = Some t' /\
    status t' = status t /\
    started_at t' = started_at t /\ completed_at t' = completed_at t.
Proof.
  intros Hwf Ht Hacc.
  destruct (accepted_write_effect key (status t) r now db t Hwf Ht Hacc) as (u & Hu & Hl).
  exists (fst (Instance_update u now t db)). split; [exact Hl|].
  destruct (Instance_update_timestamps u now t db) as [Hst _].
  rewrite Hu in Hst. cbn in Hst. split; [exact Hst|].
  apply Instance_update_same_status. rewrite Hu. reflexivity.
Qed.

(** X8. No operation lets a caller choose a derived timestamp: across
    any write or deletion, the start time of a task that stays is
    unchanged, or set to the time of the operation as the task enters
    [in_progress], or cleared as it goes from [in_progress] to [todo];
    its completion time is unchanged, or set to the time of the operation
    as it enters [approved], or cleared as it leaves [approved]. *)
Theorem timestamps_change_only_by_status o now db k t t' :
  wf_db db ->
  findByPk k db = Some t ->
  findByPk k (do_exec o now db) = Some t' ->
  (started_at t' = started_at t \/
   (started_at t = None /\ started_at t' = Some now /\
    status t <> "in_progress" /\ status t' = "in_progress") \/
   (started_at t' = None /\ status t = "in_progress" /\ status t' = "todo")) /\
  (completed_at t' = completed_at t \/
   (completed_at t' = Some now /\ status t <> "approved" /\ status t' = "approved") \/
   (completed_at t' = None /\ status t = "approved" /\ status t' <> "approved")).
Proof.
  intros Hwf Ht Hl.
  destruct (exec_row_cases o now db k t' Hwf Hl)
    as [Hsame|[(Hnone & _)|(t0 & u & Ht0 & _ & ->)]].
  - assert (t' = t) by congruence. subst t'. auto.
  - congruence.
  - assert (t0 = t) by congruence. subst t0.
    apply Instance_update_timestamp_cases.
Qed.

(** The effect of one quick status request with a valid status. *)
Lemma patch_step_effect key s now db t :
  wf_db db ->
  findByPk key db = Some t ->
  Js.includes validStatuses s = true ->
  exists t',
    findByPk key (do_step (PatchStatus key (status_body s)) now db) = Some t' /\
    status t' = s /\
    derived_timestamps_rules (status t) s (started_at t, completed_at t) now
      (started_at t', completed_at t').
Proof.
  intros Hwf Ht Hv.
  destruct (accepted_write_effect key s (PatchStatus key (status_body s)) now db t Hwf Ht)
    as (u & Hu & Hl); [cbn; auto|].
  exists (fst (Instance_update u now t db)). split; [exact Hl|].
  destruct (Instance_update_timestamps u now t db) as [Hst Hr].
  set (t' := fst (Instance_update u now t db)) in *.
  rewrite Hu in Hst. change (status t' = s) in Hst. rewrite Hst in Hr. auto.
Qed.

(** X9. Only the direct step from [in_progress] to [todo] clears the
    start time: a task in progress that is sent straight back to [todo]
    loses it, while one that first passes through another status and is
    then sent to [todo] is in [todo] with its old start time. *)
Theorem todo_may_keep_start_time key s1 now1 now2 db t a :
  wf_db db ->
  findByPk key db = Some t ->
  status t = "in_progress" ->
  started_at t = Some a ->
  Js.includes validStatuses s1 = true ->
  s1 <> "todo" -> s1 <> "in_progress" ->
  (exists t1,
     findByPk key (do_step (PatchStatus key (status_body "todo")) now1 db) = Some t1 /\
     status t1 = "todo" /\ started_at t1 = None) /\
  (exists t2,
     findByPk key
       (do_run [(PatchStatus key (status_body s1), now1);
                (PatchStatus key (status_body "todo"), now2)] db) = Some t2 /\
     status t2 = "todo" /\ started_at t2 = Some a).
Proof.
  intros Hwf Ht Hst Hsa Hv Hn1 Hn2. split.
  - destruct (patch_step_effect key "todo" now1 db t Hwf Ht eq_refl) as (t1 & Hl & Hs & Hr).
    exists t1. split; [exact Hl|]. split; [exact Hs|].
    destruct Hr as (_ & _ & _ & Hback & _). apply Hback. auto.
  - destruct (patch_step_effect key s1 now1 db t Hwf Ht Hv) as (t1 & Hl1 & Hs1 & Hr1).
    assert (Hsa1 : started_at t1 = Some a).
    { destruct Hr1 as (_ & _ & _ & _ & Hkeep & _). cbn [fst snd] in Hkeep.
      rewrite Hkeep; [exact Hsa| |]; intros (H1 & H2); congruence. }
    pose proof (step_wf parseDate parseFloat instance_methods
                  (PatchStatus key (status_body s1)) now1 db Hwf) as Hwf1.
    destruct (patch_step_effect key "todo" now2 _ t1 Hwf1 Hl1 eq_refl)
      as (t2 & Hl2 & Hs2 & Hr2).
    exists t2. split; [exact Hl2|]. split; [exact Hs2|].
    destruct Hr2 as (_ & _ & _ & _ & Hkeep & _). cbn [fst snd] in Hkeep.
    rewrite Hkeep; [exact Hsa1| |]; intros (H1 & H2); congruence.
Qed.

(** An invariant of the rows that creation establishes and
    [instance.update] keeps holds after every run. *)
Lemma exec_all_invariant (P : Task -> Prop) :
  (forall t, row_valid t -> started_at t = None -> completed_at t = None -> P t) ->
  (forall u now t db, P t -> valid_update u -> P (fst (Instance_update u now t db))) ->
  forall os db, wf_db db -> db_forall P db -> db_forall P (do_exec_all os db).
Proof.
  intros Hnew Hupd os. induction os as [|[o now] os IH]; intros db Hwf HP; cbn; [exact HP|].
  apply IH; [apply exec_wf, Hwf|].
  intros k t' Hl.
  destruct (exec_row_cases o now db k t' Hwf Hl)
    as [Hsame|[(_ & _ & _ & Hv & Hs & Hc & _)|(t0 & u & Ht0 & Hu & ->)]].
  - apply (HP k t' Hsame).
  - apply Hnew; assumption.
  - apply Hupd; [apply (HP k t0 Ht0)|exact Hu].
Qed.

(** X10. The constraints of the model hold on every row after any run of
    creates, updates, status changes and deletions, when they held before:
    the title is trimmed, not empty and within 100 characters, and the
    priority and the status are allowed values. *)
Theorem rows_stay_valid os db :
  wf_db db ->
  db_forall row_valid db ->
  db_forall row_valid (do_exec_all os db).
Proof.
  apply exec_all_invariant.
  - auto.
  - intros u now t db0. apply row_valid_update.
Qed.

(** X11. After any run, a task that has a completion time is approved,
    when this held before. *)
Theorem completed_only_if_approved os db :
  wf_db db ->
  db_forall (fun t => completed_at t <> None -> status t = "approved") db ->
  db_forall (fun t => completed_at t <> None -> status t = "approved")
    (do_exec_all os db).
Proof.
  apply (exec_all_invariant (fun t => completed_at t <> None -> status t = "approved")).
  - intros t _ _ Hc Hne. congruence.
  - intros u now t db0 Hinv _. apply completed_implies_approved_update, Hinv.
Qed.

(** X12. When the clock does not go back, after any run no derived
    timestamp is later than the last operation, no task is completed
    before it started, and so no duration is negative. *)
Theorem durations_not_negative clock os db :
  wf_db db ->
  db_forall (times_ok clock) db ->
  chronological clock os ->
  db_forall (times_ok (final_clock clock os)) (do_exec_all os db) /\
  (forall k t q, findByPk k (do_exec_all os db) = Some t ->
                 getDuration t = Some q -> (0 <= q)%Q).
Proof.
  intros Hwf Hok Hchr.
  assert (H : db_forall (times_ok (final_clock clock os)) (do_exec_all os db)).
  { revert clock db Hwf Hok Hchr.
    induction os as [|[o now] os IH]; intros clock db Hwf Hok Hchr; cbn; [exact Hok|].
    destruct Hchr as [Hle Hchr].
    apply IH; [apply exec_wf, Hwf| |exact Hchr].
    intros k t' Hl.
    destruct (exec_row_cases o now db k t' Hwf Hl)
      as [Hsame|[(_ & _ & _ & _ & Hs & Hc & _)|(t0 & u & Ht0 & _ & ->)]].
    - apply (times_ok_mono clock); [apply (Hok k t' Hsame)|exact Hle].
    - unfold times_ok. rewrite Hs, Hc. repeat split; intros; congruence.
    - apply (times_ok_update clock); [apply (Hok k t0 Ht0)|exact Hle]. }
  split; [exact H|].
  intros k t q Hl Hq. apply (getDuration_nonneg t q); [|exact Hq].
  apply (H k t Hl).
Qed.

Lemma exec_next_id o now db : next_id db <= next_id (do_exec o now db).
Proof.
  destruct o as [r|key]; cbn; [apply step_next_id|].
  unfold delete_task. destruct (findByPk key db); cbn; lia.
Qed.

Lemma free_key_stays_free os db k :
  wf_db db -> findByPk k db = None -> k < next_id db ->
  findByPk k (do_exec_all os db) = None /\ next_id db <= next_id (do_exec_all os db).
Proof.
  revert db. induction os as [|[o now] os IH]; intros db Hwf Hn Hlt; cbn; [split; [exact Hn|lia]|].
  pose proof (exec_next_id o now db) as Hmono.
  destruct (IH (do_exec o now db)) as [H1 H2].
  - apply exec_wf, Hwf.
  - destruct (findByPk k (do_exec o now db)) as [t'|] eqn:Hl; [|reflexivity].
    destruct (exec_row_cases o now db k t' Hwf Hl)
      as [Hsame|[(_ & Hk & _)|(t0 & u & Ht0 & _)]]; [congruence|lia|congruence].
  - lia.
  - split; [exact H1|lia].
Qed.

(** X13. A key is never given twice: once a task is deleted, no later
    run of creates, updates, status changes and deletions puts a row under
    its id again, and the counter of the keys never goes back. *)
Theorem deleted_key_never_reused key now os db t :
  wf_db db ->
  findByPk key db = Some t ->
  findByPk key (do_exec_all ((Delete key, now) :: os) db) = None /\
  next_id db <= next_id (do_exec_all ((Delete key, now) :: os) db).
Proof.
  intros Hwf Ht. cbn [exec_all exec].
  destruct (Hwf key t Ht) as [Hid Hlt].
  assert (Hgone : findByPk key (snd (delete_task key db)) = None).
  { unfold delete_task. rewrite Ht. unfold findByPk, Instance_destroy; cbn.
    rewrite Hid. apply lookup_delete_eq. }
  assert (Hnext : next_id (snd (delete_task key db)) = next_id db).
  { unfold delete_task. rewrite Ht. reflexivity. }
  destruct (free_key_stays_free os (snd (delete_task key db)) key) as [H1 H2].
  - apply delete_task_wf, Hwf.
  - exact Hgone.
  - lia.
  - split; [exact H1|lia].
Qed.

End MoreRouteProperties.

(** ** More on the list route *)

(** Cutting a list into [n] pages of [L] elements and gluing the pages
    gives the list back, when [n] pages are enough. *)
Lemma pages_concat {A : Type} (l : list A) (L n : nat) :
  (List.length l <= n * L)%nat ->
  concat (map (fun i => take L (drop (i * L) l)) (seq 0 n)) = l.
Proof.
  revert l. induction n as [|n IH]; intros l Hlen.
  - destruct l; [reflexivity|cbn in Hlen; lia].
  - cbn [seq map concat]. rewrite <- seq_shift, map_map.
    transitivity (take L l ++ drop L l)%list; [|apply take_drop].
    f_equal. etransitivity; [|apply (IH (drop L l)); rewrite length_drop; lia].
    f_equal. apply map_ext. intros i. rewrite drop_drop. reflexivity.
Qed.

Lemma starts_with_like n s :
  starts_with n s = true -> Sql.like (n ++ "%") s = true.
Proof.
  revert s. induction n as [|c n IH]; intros s Hs.
  - apply like_percent.
  - destruct s as [|d s]; [discriminate|]. cbn in Hs.
    apply andb_true_iff in Hs as [Hcd Hs]. apply Ascii.eqb_eq in Hcd. subst d.
    specialize (IH s Hs).
    change (String c n ++ "%") with (String c (n ++ "%")). cbn [Sql.like].
    destruct (Ascii.eqb c Sql.percent).
    + apply orb_true_iff. right.
      destruct s as [|e s]; cbn [Sql.like] in *; rewrite IH; reflexivity.
    + unfold Sql.ci_eqb. rewrite Ascii.eqb_refl, orb_true_r, IH. reflexivity.
Qed.

(** A string that holds [needle] matches the pattern [%needle%],
    whatever characters [needle] is made of. *)
Lemma contains_like n s :
  contains n s = true -> Sql.like ("%" ++ n ++ "%") s = true.
Proof.
  change ("%" ++ n ++ "%") with (String Sql.percent (n ++ "%")).
  induction s as [|d s IH]; cbn [contains]; intros H.
  - rewrite orb_false_r in H. cbn. rewrite (starts_with_like n "" H). reflexivity.
  - apply orb_true_iff in H as [H|H].
    + cbn. rewrite (starts_with_like n (String d s) H). reflexivity.
    + specialize (IH H). cbn in *. rewrite IH. apply orb_true_r.
Qed.

Lemma elem_of_all_rows db t :
  In t (all_rows db) <-> exists k, findByPk k db = Some t.
Proof.
  unfold all_rows, findByPk. rewrite <- list_elem_of_In, list_elem_of_fmap. split.
  - intros ([k t0] & -> & Hin). apply elem_of_map_to_list in Hin. eauto.
  - intros (k & Hk). exists (k, t). split; [reflexivity|].
    apply elem_of_map_to_list, Hk.
Qed.

Lemma qval_not_supplied v : supplied_set v = None -> qval_truthy v = false.
Proof.
  destruct v as [[s|l]|]; cbn; [destruct s; [reflexivity|discriminate]|discriminate|reflexivity].
Qed.

Lemma text_not_supplied s : supplied_text (Some s) = None -> Js.truthy s = false.
Proof. cbn. destruct (Js.truthy s); [discriminate|reflexivity]. Qed.

Section MoreListing.

Variable instance_methods : bool.
Variable order : string -> string -> list Task -> option (list Task).

Local Abbreviation GET_list := (list_tasks instance_methods order).
Local Abbreviation enriched := (enrich instance_methods).



End MoreListing.

(** X16. The list route never misses a row that holds the given strings
    as they are: a row that satisfies the supplied filters with plain
    substring tests is selected, also when the strings hold [%] or [_]. *)
Theorem plain_matches_are_selected q t :
  filter_as_specified q t = true ->
  Sql.eval_where (build_where q) t = true.
Proof.
  unfold filter_as_specified, satisfies_filters, Sql.eval_where, build_where.
  rewrite !forallb_app, !where_set_piece. cbn [col_value].
  rewrite !andb_true_iff. intros ((((H1 & H2) & H3) & H4) & H5).
  repeat split; try assumption.
  - destruct (q_assignee q) as [a|]; [|reflexivity]. cbn in *.
    destruct (Js.truthy a); [|reflexivity]. cbn in *. rewrite andb_true_r.
    destruct (assignee t) as [y|]; cbn in *; [apply contains_like, H4|discriminate].
  - destruct (q_search q) as [x|]; [|reflexivity]. cbn in *.
    destruct (Js.truthy x); [|reflexivity]. cbn in *.
    rewrite andb_true_r, orb_false_r.
    apply orb_true_iff in H5 as [H5|H5]; [apply orb_true_iff in H5 as [H5|H5]|].
    + rewrite (contains_like x (title t) H5). reflexivity.
    + destruct (description t) as [d|]; [|discriminate]. cbn in *.
      rewrite (contains_like x d H5). apply orb_true_r.
    + destruct (tags t) as [g|]; [|discriminate]. cbn in *.
      rewrite (contains_like x g H5). rewrite !orb_true_r. reflexivity.
Qed.

(** ** The statistics and the catalogs *)

Lemma length_filter_cons {A : Type} (f : A -> bool) (x : A) (l : list A) :
  Z.of_nat (List.length (List.filter f (x :: l)))
  = (if f x then 1 else 0) + Z.of_nat (List.length (List.filter f l)).
Proof. cbn [List.filter]. destruct (f x); cbn [List.length]; lia. Qed.

Lemma valid_status_cases s :
  Js.includes validStatuses s = true ->
  s = "todo" \/ s = "in_progress" \/ s = "pending_review" \/ s = "approved" \/
  s = "rejected_revision" \/ s = "cancelled".
Proof.
  unfold Js.includes, validStatuses. cbn [existsb]. rewrite !orb_true_iff.
  rewrite !String.eqb_eq. intuition discriminate.
Qed.

Lemma valid_priority_cases p :
  Js.includes validPriorities p = true ->
  p = "low" \/ p = "medium" \/ p = "high".
Proof.
  unfold Js.includes, validPriorities. cbn [existsb]. rewrite !orb_true_iff.
  rewrite !String.eqb_eq. intuition discriminate.
Qed.

(** X17. The statistics add up: on a table whose rows have allowed
    statuses and priorities, the six counts by status and the three counts
    by priority each sum to the total, which is the number of rows; and on
    an empty table the completion rate is 0, no division being made. *)
Theorem stats_add_up round_percent db :
  db_forall row_valid db ->
  exists out,
    get_stats round_percent db = Json 200 out /\
    st_total out = Task_count db /\
    sum_counts (st_statusStats out) = st_total out /\
    sum_counts (st_priorityStats out) = st_total out /\
    map fst (st_statusStats out) = validStatuses /\
    map fst (st_priorityStats out) = validPriorities /\
    (st_total out = 0 -> st_completionRate out = 0).
Proof.
  intros Hvalid. eexists. split; [reflexivity|].
  cbn [st_total st_statusStats st_priorityStats st_completionRate].
  split; [reflexivity|].
  assert (Hall : forall t, In t (all_rows db) -> row_valid t).
  { intros t Hin. apply elem_of_all_rows in Hin as (k & Hk). apply (Hvalid k t Hk). }
  unfold Task_count_where, Task_count, sum_counts.
  cbn [getStatusOptions getPriorityOptions map fold_right snd fst count value col_value].
  split; [|split; [|split; [reflexivity|split; [reflexivity|]]]].
  - induction (all_rows db) as [|x l IH]; [reflexivity|].
    rewrite !length_filter_cons. cbn [List.length]. rewrite Nat2Z.inj_succ.
    specialize (IH (fun t Hin => Hall t (or_intror Hin))).
    destruct (Hall x (or_introl eq_refl)) as (_ & _ & _ & _ & Hs).
    destruct (valid_status_cases _ Hs) as [H|[H|[H|[H|[H|H]]]]];
      rewrite H; cbn [String.eqb Ascii.eqb Bool.eqb]; lia.
  - induction (all_rows db) as [|x l IH]; [reflexivity|].
    rewrite !length_filter_cons. cbn [List.length]. rewrite Nat2Z.inj_succ.
    specialize (IH (fun t Hin => Hall t (or_intror Hin))).
    destruct (Hall x (or_introl eq_refl)) as (_ & _ & _ & Hp & _).
    destruct (valid_priority_cases _ Hp) as [H|[H|H]];
      rewrite H; cbn [String.eqb Ascii.eqb Bool.eqb]; lia.
  - intros H0. rewrite H0. reflexivity.
Qed.

(** X18. The catalogs, the validation lists and the labels agree: the
    values of the two catalogs are the allowed statuses and priorities,
    each once, and the label that [getStatusText] and [getPriorityText]
    give for a catalog value is the label of the catalog. *)
Theorem catalogs_agree :
  options_status = Json 200 getStatusOptions /\
  options_priority = Json 200 getPriorityOptions /\
  map value getStatusOptions = validStatuses /\
  map value getPriorityOptions = validPriorities /\
  NoDup validStatuses /\ NoDup validPriorities /\
  (forall o t, In o getStatusOptions -> status t = value o ->
               getStatusText t = label o) /\
  (forall o t, In o getPriorityOptions -> priority t = value o ->
               getPriorityText t = label o).
Proof.
  repeat split.
  - apply (bool_decide_unpack _). vm_compute. exact I.
  - apply (bool_decide_unpack _). vm_compute. exact I.
  - intros o t Hin Hs. unfold getStatusText. rewrite Hs.
    cbn in Hin. destruct Hin as [<-|[<-|[<-|[<-|[<-|[<-|[]]]]]]]; reflexivity.
  - intros o t Hin Hp. unfold getPriorityText. rewrite Hp.
    cbn in Hin. destruct Hin as [<-|[<-|[<-|[]]]]; reflexivity.
Qed.

(** ** The two project listings *)

Ltac each_char c :=
  destruct c as [[] [] [] [] [] [] [] []]; reflexivity.

Lemma lower_char_not_capital c : is_ascii_capital (lower_char c) = false.
Proof. each_char c. Qed.

Lemma lower_char_space c : Js.is_space (lower_char c) = Js.is_space c.
Proof. each_char c. Qed.

Lemma lower_char_idem c : lower_char (lower_char c) = lower_char c.
Proof. each_char c. Qed.

Lemma replace_space_runs_no_space b s :
  all_chars (fun c => negb (Js.is_space c)) (replace_space_runs b s) = true.
Proof.
  revert b. induction s as [|c r IH]; intros b; [reflexivity|]. cbn.
  destruct (Js.is_space c) eqn:Hc.
  - destruct b; [apply IH|]. cbn. apply IH.
  - cbn. rewrite Hc. apply IH.
Qed.

Lemma toLowerCase_shape s :
  all_chars (fun c => negb (Js.is_space c)) s = true ->
  all_chars (fun c => negb (Js.is_space c) && negb (is_ascii_capital c))
    (toLowerCase s) = true.
Proof.
  induction s as [|c r IH]; [reflexivity|]. cbn.
  intros H. apply andb_true_iff in H as [Hc Hr].
  rewrite lower_char_space, lower_char_not_capital, Hc, (IH Hr). reflexivity.
Qed.

Lemma toLowerCase_replace_space_runs b s :
  toLowerCase (replace_space_runs b (toLowerCase s))
  = toLowerCase (replace_space_runs b s).
Proof.
  revert b. induction s as [|c r IH]; intros b; [reflexivity|]. cbn.
  rewrite lower_char_space. destruct (Js.is_space c).
  - destruct b; [apply IH|]. cbn. rewrite IH. reflexivity.
  - cbn. rewrite lower_char_idem, IH. reflexivity.
Qed.

Lemma auto_id_unfold name :
  auto_id name
  = String "a" (String "u" (String "t" (String "o" (String "_"
      (toLowerCase (replace_space_runs false name)))))).
Proof. reflexivity. Qed.

(** X19. The id made up for a project without one starts with [auto_],
    holds no white space and no ASCII capital letter, and does not depend
    on the letter case of the name: names that differ only in case get the
    same id. *)
Theorem auto_id_shape name :
  starts_with "auto_" (auto_id name) = true /\
  all_chars (fun c => negb (Js.is_space c) && negb (is_ascii_capital c))
    (auto_id name) = true /\
  auto_id (toLowerCase name) = auto_id name.
Proof.
  rewrite !auto_id_unfold. split; [reflexivity|]. split.
  - cbn [all_chars]. rewrite toLowerCase_shape by apply replace_space_runs_no_space.
    reflexivity.
  - rewrite toLowerCase_replace_space_runs. reflexivity.
Qed.

Lemma ltb_empty_r m : String.ltb m "" = false.
Proof. destruct m; reflexivity. Qed.

Lemma ltb_empty_l y : y <> "" -> String.ltb "" y = true.
Proof. destruct y; [congruence|reflexivity]. Qed.

Lemma fold_max_in r x :
  In (fold_left (fun m y => if String.ltb m y then y else m) r x) (x :: r).
Proof.
  revert x. induction r as [|y r IH]; intros x; cbn [fold_left]; [left; reflexivity|].
  destruct (IH (if String.ltb x y then y else x)) as [H|H].
  - rewrite <- H. destruct (String.ltb x y); [right; left|left]; reflexivity.
  - right. right. exact H.
Qed.

Lemma fold_max_nonempty r x :
  (x <> "" \/ exists y, In y r /\ y <> "") ->
  fold_left (fun m y => if String.ltb m y then y else m) r x <> "".
Proof.
  revert x. induction r as [|y r IH]; intros x H; cbn [fold_left].
  - destruct H as [H|(y & [] & _)]. exact H.
  - apply IH. destruct H as [H|(z & [<-|Hz] & Hne)].
    + left. destruct (String.ltb x y) eqn:Hl; [|exact H].
      intros ->. rewrite ltb_empty_r in Hl. discriminate.
    + destruct (String.eqb_spec x "") as [->|Hx].
      * left. rewrite (ltb_empty_l y Hne). exact Hne.
      * left. destruct (String.ltb x y) eqn:Hl; [exact Hne|exact Hx].
    + right. eauto.
Qed.

Lemma max_string_in l m : max_string l = Some m -> In m l.
Proof.
  destruct l as [|x r]; [discriminate|]. cbn. intros [= <-]. apply fold_max_in.
Qed.

Lemma max_string_nonempty l m :
  max_string l = Some m -> (exists y, In y l /\ y <> "") -> m <> "".
Proof.
  destruct l as [|x r]; [discriminate|]. cbn [max_string]. intros [= <-] (y & Hin & Hne).
  apply fold_max_nonempty. destruct Hin as [<-|Hin]; [left; exact Hne|right; eauto].
Qed.

Lemma max_string_none l : max_string l = None -> l = [].
Proof. destruct l; [reflexivity|discriminate]. Qed.

(** The ids of the rows of a project. *)
Lemma group_ids_spec name db i :
  In i (omap project_id
          (List.filter
             (fun t => match project_name t with
                       | Some n => String.eqb n name
                       | None => false
                       end)
             (all_rows db)))
  <-> exists k t, findByPk k db = Some t /\ project_name t = Some name /\
                  project_id t = Some i.
Proof.
  rewrite <- list_elem_of_In, list_elem_of_omap. split.
  - intros (t & Hin & Hi). apply list_elem_of_In, filter_In in Hin as [Hin Hn].
    apply elem_of_all_rows in Hin as (k & Hk).
    destruct (project_name t) as [n|] eqn:Hpn; [|discriminate].
    apply String.eqb_eq in Hn. subst n. eauto.
  - intros (k & t & Hk & Hn & Hi). exists t. split; [|exact Hi].
    apply list_elem_of_In, filter_In. split; [apply elem_of_all_rows; eauto|].
    rewrite Hn. apply String.eqb_refl.
Qed.

(** X20. The listing of [/api/tasks/projects] holds each pair of a
    project id and a project name found together on a row exactly once,
    and nothing else: the rows that lack one of the two contribute
    nothing. *)
Theorem task_projects_listing order_by_name db :
  (forall l, Permutation (order_by_name l) l) ->
  exists out,
    list_task_projects order_by_name db = Json 200 out /\
    NoDup out /\
    (forall i n, In (mkProjectJson i n) out <->
       exists k t, findByPk k db = Some t /\
                   project_id t = Some i /\ project_name t = Some n).
Proof.
  intros Hperm. eexists. split; [reflexivity|]. split.
  - rewrite Hperm. apply NoDup_remove_dups.
  - intros i n. rewrite <- list_elem_of_In, Hperm, elem_of_remove_dups, list_elem_of_omap.
    split.
    + intros (t & Hin & Hp). apply list_elem_of_In, elem_of_all_rows in Hin as (k & Hk).
      unfold project_of in Hp.
      destruct (project_id t) as [i'|] eqn:Hi, (project_name t) as [n'|] eqn:Hn;
        try discriminate.
      injection Hp as <- <-. eauto.
    + intros (k & t & Hk & Hi & Hn). exists t.
      split; [apply list_elem_of_In, elem_of_all_rows; eauto|].
      unfold project_of. rewrite Hi, Hn. reflexivity.
Qed.

(** X21. The listing of [/api/projects] has one entry for each project
    name found on a row, and every entry has an id that is not empty:
    either the id of one of the rows of that name, or, when no row of that
    name has a non-empty id, the id made up from the name. *)
Theorem projects_listing order_groups db :
  (forall l, Permutation (order_groups l) l) ->
  exists out,
    list_projects order_groups db = Json 200 out /\
    NoDup (map p_name out) /\
    (forall n, In n (map p_name out) <->
       exists k t, findByPk k db = Some t /\ project_name t = Some n) /\
    (forall p, In p out ->
       p_id p <> "" /\
       ((exists k t, findByPk k db = Some t /\ project_name t = Some (p_name p) /\
                     project_id t = Some (p_id p)) \/
        (p_id p = auto_id (p_name p) /\
         forall k t i, findByPk k db = Some t -> project_name t = Some (p_name p) ->
                       project_id t = Some i -> i = ""))).
Proof.
  intros Hperm. eexists. split; [reflexivity|].
  assert (Hnames : map p_name
                     (map (fun n => formatted_project n db) (order_groups (project_names db)))
                   = order_groups (project_names db)).
  { rewrite map_map. cbn. apply map_id. }
  rewrite Hnames. split; [|split].
  - rewrite Hperm. apply NoDup_remove_dups.
  - intros n. unfold project_names.
    rewrite <- list_elem_of_In, Hperm, elem_of_remove_dups, list_elem_of_omap. split.
    + intros (t & Hin & Hn). apply list_elem_of_In, elem_of_all_rows in Hin as (k & Hk). eauto.
    + intros (k & t & Hk & Hn). exists t.
      split; [apply list_elem_of_In, elem_of_all_rows; eauto|exact Hn].
  - intros p Hin. apply in_map_iff in Hin as (n & <- & _).
    unfold formatted_project. cbn [p_id p_name].
    assert (Hauto : auto_id n <> "") by (rewrite auto_id_unfold; discriminate).
    destruct (group_max_id n db) as [i|] eqn:Hmax.
    + unfold group_max_id in Hmax.
      destruct (Js.truthy i) eqn:Hi.
      * split; [intros ->; discriminate|]. left.
        apply max_string_in, group_ids_spec in Hmax. exact Hmax.
      * split; [exact Hauto|]. right. split; [reflexivity|].
        intros k t j Hk Hn Hj.
        destruct (String.eqb_spec j "") as [|Hne]; [assumption|]. exfalso.
        assert (i <> "").
        { apply (max_string_nonempty _ i Hmax). exists j. split; [|exact Hne].
          apply group_ids_spec. eauto. }
        destruct i; [congruence|discriminate].
    + split; [exact Hauto|]. right. split; [reflexivity|].
      intros k t j Hk Hn Hj. exfalso.
      apply max_string_none in Hmax.
      assert (Hin : In j []) by (rewrite <- Hmax; apply group_ids_spec; eauto).
      destruct Hin.
Qed.

(** ** More concrete runs *)

Lemma db_forall_singleton (P : Task -> Prop) t n :
  P t -> db_forall P (mkDb (<[id t := t]> ∅) n).
Proof.
  intros Ht k t' H. unfold findByPk in H. cbn in H. rewrite lookup_insert in H.
  case_decide; [|rewrite lookup_empty in H; discriminate]. congruence.
Qed.

Lemma valid_todo_task : row_valid todo_task.
Proof. repeat split; try reflexivity; [discriminate|vm_compute; discriminate]. Qed.

Lemma valid_todo_db : db_forall row_valid todo_db.
Proof. exact (db_forall_singleton row_valid todo_task 2 valid_todo_task). Qed.

Lemma wf_started_db : wf_db started_db.
Proof. exact (wf_singleton started_task). Qed.

Lemma times_ok_one_day_db : db_forall (times_ok 86400000) one_day_db.
Proof.
  apply (db_forall_singleton (times_ok 86400000) one_day_task 2).
  repeat split; cbn; intros; try congruence; try (injection H as <-; lia).
  assert (a = 0) by congruence. assert (b = 86400000) by congruence. lia.
Qed.

(** Deleting the only task: 200, and the task is gone. *)
Lemma delete_task_effect_witness :
  http_status (fst (delete_task 1 todo_db)) = 200 /\
  get_task true 1 (snd (delete_task 1 todo_db)) = Fail 404 TaskNotFound.
Proof.
  destruct (delete_task_effect true 1 todo_db wf_todo_db) as (_ & H2 & H3 & _).
  split; [apply (H2 todo_task eq_refl)|exact H3].
Defined.

(** The task created in the empty table is returned under the id 1. *)
Lemma create_adds_one_row_witness :
  get_task true 1 (mkDb (<[1 := spec_task]> ∅) 2) = Json 200 (enrich true spec_task) /\
  created_at spec_task = 7.
Proof.
  destruct (create_adds_one_row sample_parseDate sample_parseFloat true
              spec_body 7 empty_db spec_task (mkDb (<[1 := spec_task]> ∅) 2)
              wf_empty_db eq_refl)
    as (Hget & _ & _ & Hc & _).
  split; [exact Hget|exact Hc].
Defined.

(** Starting the task through the update route: the answer is what the
    get route returns afterwards. *)
Lemma update_then_get_witness :
  get_task true 1
    (snd (update_task sample_parseDate sample_parseFloat true 1
            (status_body "in_progress") 10 todo_db))
  = Json 200 (enrich true started_task).
Proof.
  destruct (update_then_get sample_parseDate sample_parseFloat true 1
              (status_body "in_progress") 10 todo_db (enrich true started_task)
              (snd (update_task sample_parseDate sample_parseFloat true 1
                      (status_body "in_progress") 10 todo_db))
              wf_todo_db)
    as (Hget & _).
  - vm_compute. reflexivity.
  - exact Hget.
Defined.

(** An invalid status for a task that does not exist: 400, not 404. *)
Lemma patch_status_answer_witness :
  http_status (fst (patch_status true 1 (status_body "done") 0 empty_db)) = 400.
Proof.
  destruct (patch_status_answer true 1 (status_body "done") 0 empty_db wf_empty_db)
    as (H & _).
  rewrite H. reflexivity.
Defined.

(** A new title is stored trimmed, the empty tags are cleared, and the
    assignee, whose key is absent, stays. *)
Lemma update_stores_witness :
  exists t',
    findByPk 1
      (snd (update_task sample_parseDate sample_parseFloat true 1 retitle_body 10 todo_db))
    = Some t' /\
    title t' = "New title" /\ tags t' = None /\ assignee t' = Some "alice" /\
    status t' = "todo".
Proof.
  destruct (update_stores sample_parseDate sample_parseFloat true 1 retitle_body 10
              todo_db todo_task wf_todo_db eq_refl eq_refl)
    as (t' & Hl & Hti & _ & Hst & _ & Has & Htg & _).
  exists t'. exact (conj Hl (conj Hti (conj Htg (conj Has Hst)))).
Defined.

(** A date and a number of hours that do not parse are answered with 200
    and leave [null] in both columns; the row is written. *)
Example update_with_unparsed_values :
  update_task sample_parseDate sample_parseFloat true 1 unparsed_body 10 todo_db
  = (Json 200 (enrich true (set_updated_at 10 todo_task)),
     mkDb (<[1 := set_updated_at 10 todo_task]> ∅) 2) /\
  due_date todo_task = None /\ actual_hours todo_task = None.
Proof. split; [vm_compute; reflexivity|]. split; reflexivity. Qed.

(** Approving an approved task again writes nothing: the answer holds
    the row as it was, with its update date. *)
Example update_without_change :
  update_task sample_parseDate sample_parseFloat true 1 (status_body "approved")
    90000001 one_day_db
  = (Json 200 (enrich true one_day_task), one_day_db).
Proof. vm_compute. reflexivity. Qed.

(** Approving an approved task again changes neither timestamp. *)
Lemma same_status_write_witness :
  exists t',
    findByPk 1
      (step sample_parseDate sample_parseFloat true
         (PatchStatus 1 (status_body "approved")) 90000000 one_day_db) = Some t' /\
    started_at t' = Some 0 /\ completed_at t' = Some 86400000.
Proof.
  destruct (same_status_write sample_parseDate sample_parseFloat true 1
              (PatchStatus 1 (status_body "approved")) 90000000 one_day_db one_day_task
              wf_one_day_db eq_refl)
    as (t' & Hl & _ & Hs & Hc).
  - repeat split.
  - exists t'. exact (conj Hl (conj Hs Hc)).
Defined.

(** Starting the task sets its start time to the time of the request. *)
Lemma timestamps_change_only_by_status_witness :
  started_at started_task = Some 10 /\ completed_at started_task = completed_at todo_task.
Proof.
  destruct (timestamps_change_only_by_status sample_parseDate sample_parseFloat true
              (Write (PatchStatus 1 (status_body "in_progress"))) 10 todo_db 1
              todo_task started_task wf_todo_db eq_refl)
    as [Hs Hc].
  - vm_compute. reflexivity.
  - split; [reflexivity|].
    destruct Hc as [Hc|[(Hc & _)|(_ & Hc & _)]]; [exact Hc|discriminate Hc|discriminate Hc].
Defined.

(** In progress since 10: straight back to [todo] clears the start time;
    through [pending_review] and then to [todo] it is kept. *)
Lemma todo_may_keep_start_time_witness :
  exists t2,
    findByPk 1
      (run sample_parseDate sample_parseFloat true
         [(PatchStatus 1 (status_body "pending_review"), 20);
          (PatchStatus 1 (status_body "todo"), 30)] started_db) = Some t2 /\
    status t2 = "todo" /\ started_at t2 = Some 10.
Proof.
  destruct (todo_may_keep_start_time sample_parseDate sample_parseFloat true 1
              "pending_review" 20 30 started_db started_task 10 wf_started_db)
    as [_ H]; try reflexivity; try discriminate.
  exact H.
Defined.

(** A create and a deletion on a valid table leave a valid table. *)
Lemma rows_stay_valid_witness :
  db_forall row_valid
    (exec_all sample_parseDate sample_parseFloat true
       [(Write (Create spec_body), 7); (Delete 1, 8)] todo_db).
Proof.
  exact (rows_stay_valid sample_parseDate sample_parseFloat true
           [(Write (Create spec_body), 7); (Delete 1, 8)] todo_db
           wf_todo_db valid_todo_db).
Defined.

(** Creating an approved task keeps this half of the invariant. *)
Lemma completed_only_if_approved_witness :
  db_forall (fun t => completed_at t <> None -> status t = "approved")
    (exec_all sample_parseDate sample_parseFloat true
       [(Write (Create approved_body), 7)] todo_db).
Proof.
  apply (completed_only_if_approved sample_parseDate sample_parseFloat true
           [(Write (Create approved_body), 7)] todo_db wf_todo_db).
  apply (db_forall_singleton _ todo_task 2). intros H. destruct (H eq_refl).
Defined.

(** Reopening the one-day task after its completion. *)
Lemma durations_not_negative_witness :
  db_forall (times_ok 86400001)
    (exec_all sample_parseDate sample_parseFloat true
       [(Write (PatchStatus 1 (status_body "in_progress")), 86400001)] one_day_db).
Proof.
  destruct (durations_not_negative sample_parseDate sample_parseFloat true 86400000
              [(Write (PatchStatus 1 (status_body "in_progress")), 86400001)] one_day_db
              wf_one_day_db times_ok_one_day_db)
    as [H _].
  - split; [lia|exact I].
  - exact H.
Defined.

(** The id 1, deleted, is not given to the task created next. *)
Lemma deleted_key_never_reused_witness :
  findByPk 1
    (exec_all sample_parseDate sample_parseFloat true
       [(Delete 1, 5); (Write (Create spec_body), 7)] todo_db) = None.
Proof.
  destruct (deleted_key_never_reused sample_parseDate sample_parseFloat true 1 5
              [(Write (Create spec_body), 7)] todo_db todo_task wf_todo_db eq_refl)
    as [H _].
  exact H.
Defined.



(** The strings of the query occur in the task: it is selected. *)
Lemma plain_matches_are_selected_witness :
  Sql.eval_where (build_where plain_query) todo_task = true.
Proof. exact (plain_matches_are_selected plain_query todo_task eq_refl). Defined.

(** One task, in [todo] and of high priority. *)
Lemma stats_add_up_witness :
  exists out,
    get_stats (fun c t => 100 * c / t) todo_db = Json 200 out /\
    sum_counts (st_statusStats out) = 1 /\ sum_counts (st_priorityStats out) = 1.
Proof.
  destruct (stats_add_up (fun c t => 100 * c / t) todo_db valid_todo_db)
    as (out & Hout & Ht & Hs & Hp & _).
  exists out. split; [exact Hout|]. rewrite Hs, Hp, Ht. split; reflexivity.
Defined.

(** The project of the only task is listed. *)
Lemma task_projects_listing_witness :
  exists out,
    list_task_projects (fun l => l) project_db = Json 200 out /\
    In (mkProjectJson "TMS-001" "Task Manager") out.
Proof.
  destruct (task_projects_listing (fun l => l) project_db) as (out & Hout & _ & Hin).
  - intros l. apply Permutation_refl.
  - exists out. split; [exact Hout|]. apply Hin. exists 1, project_task.
    repeat split; reflexivity.
Defined.

(** The project of the only task is listed under its name. *)
Lemma projects_listing_witness :
  exists out,
    list_projects (fun l => l) project_db = Json 200 out /\
    In "Task Manager" (map p_name out).
Proof.
  destruct (projects_listing (fun l => l) project_db) as (out & Hout & _ & Hin & _).
  - intros l. apply Permutation_refl.
  - exists out. split; [exact Hout|]. apply Hin. exists 1, project_task.
    split; reflexivity.
Defined.
